(** * Perceptron (posts/perceptron-blog-post/perceptron.py)

    A shallow embedding of the [Perceptron] class: its [fit], [score],
    [predict] and [validation] methods, the handful of numpy operations
    they call, and the theorems about them.

    Numbers are exact rationals ([Q]): the arithmetic of the source is
    read as arithmetic on real numbers, rounding is not modelled, and
    equality of numbers is [Qeq] ([==]).  A Python object whose attributes
    may be missing is a record of options; exceptions are an error result
    threaded with the object through a small state-and-error monad. *)

From Stdlib Require Import QArith Qround List ZArith Lia Lqa Bool PeanoNat.
Import ListNotations.

Local Open Scope Q_scope.

(* ------------------------------------------------------------------ *)
(** ** Exceptions and results *)

Inductive exn : Type :=
| AttributeError   (* reading [self.w] or [self.history] before it is set *)
| ValueError       (* numpy shape failure, or [randint] on an empty range *)
| IndexError.      (* subscript out of range *)

Inductive result (A : Type) : Type :=
| Ok (a : A)
| Raise (e : exn).

Arguments Ok {A} a.
Arguments Raise {A} e.

(* ------------------------------------------------------------------ *)
(** ** Numbers *)

Module Num.

(** [a < b] as a boolean. *)
Definition ltb (a b : Q) : bool :=
  match a ?= b with
  | Lt => true
  | _ => false
  end.

(** [numpy.sign]: -1 below zero, 0 at zero, +1 above zero. *)
Definition sign (v : Q) : Q :=
  match v ?= 0 with
  | Lt => -1
  | Eq => 0
  | Gt => 1
  end.

(** [numpy.where(c, 1, 0)] on a single truth value. *)
Definition where10 (c : bool) : Q := if c then 1 else 0.

(** [a // d] for a positive integer constant [d]: the floor of the
    quotient, as a number. *)
Definition floor_divide (a : Q) (d : positive) : Q :=
  inject_Z (Qfloor (a / inject_Z (Zpos d))).

(** The value of a true division [a / n] of a float by an integer count:
    numpy gives nan for 0/0 and a signed infinity for a non-zero
    numerator over 0. *)
Inductive npfloat : Type :=
| Finite (q : Q)
| PosInf
| NegInf
| NaN.

Definition true_divide (a : Q) (n : nat) : npfloat :=
  match n with
  | O => match a ?= 0 with
         | Eq => NaN
         | Lt => NegInf
         | Gt => PosInf
         end
  | S _ => Finite (a / inject_Z (Z.of_nat n))
  end.

End Num.

(* ------------------------------------------------------------------ *)
(** ** Arrays *)

Module Np.

(** A one-dimensional array. *)
Definition vector := list Q.

(** A two-dimensional array of shape [(length rows, ncols)].  The column
    count is part of the value: an array with no rows still has one. *)
Record matrix : Type := Matrix { ncols : nat; rows : list vector }.

Definition nrows (X : matrix) : nat := length (rows X).

(** Every row has [ncols] entries. *)
Definition wf (X : matrix) : Prop :=
  Forall (fun r => length r = ncols X) (rows X).

(** [np.append(X, np.ones((X.shape[0], 1)), 1)]. *)
Definition append_ones (X : matrix) : matrix :=
  {| ncols := S (ncols X); rows := map (fun r => r ++ [1]) (rows X) |}.

(** [2*y - 1], element by element. *)
Definition shift_labels (y : vector) : vector :=
  map (fun v => 2 * v - 1) y.

(** Sum of the products of corresponding entries. *)
Fixpoint inner (a b : vector) : Q :=
  match a, b with
  | x :: a', z :: b' => x * z + inner a' b'
  | _, _ => 0
  end.

(** [np.dot(a, b)] for two one-dimensional arrays. *)
Definition dot_vv (a b : vector) : result Q :=
  if Nat.eqb (length a) (length b) then Ok (inner a b) else Raise ValueError.

(** [np.dot(X, w)] for a two-dimensional [X] and a one-dimensional [w]. *)
Definition dot_mv (X : matrix) (w : vector) : result vector :=
  if Nat.eqb (ncols X) (length w)
  then Ok (map (fun r => inner r w) (rows X))
  else Raise ValueError.

(** [c * v] for a number [c]. *)
Definition scale (c : Q) (v : vector) : vector := map (Qmult c) v.

Fixpoint zip_add (a b : vector) : vector :=
  match a, b with
  | x :: a', z :: b' => (x + z) :: zip_add a' b'
  | _, _ => []
  end.

(** [a + b] for two one-dimensional arrays, with numpy's broadcasting of
    a one-element array. *)
Definition add (a b : vector) : result vector :=
  if Nat.eqb (length a) (length b) then Ok (zip_add a b)
  else match a, b with
       | [x], _ => Ok (map (Qplus x) b)
       | _, [z] => Ok (map (fun x => x + z) a)
       | _, _ => Raise ValueError
       end.

(** [v[i]] for a non-negative [i]. *)
Definition getitem {A : Type} (v : list A) (i : nat) : result A :=
  match nth_error v i with
  | Some x => Ok x
  | None => Raise IndexError
  end.

(** Numerical equality of arrays. *)
Definition vec_eq (a b : vector) : Prop := Forall2 Qeq a b.

End Np.

(* ------------------------------------------------------------------ *)
(** ** The random source

    [np.random.rand] and [np.random.randint] read a process-wide generator.
    Here the generator is an explicit value: [uniform j] is the [j]-th number
    of a [rand] call and [integers k] decides the [k]-th [randint] call. *)

Record RandomState : Type :=
  { uniform : nat -> Q; integers : nat -> nat }.

(** [np.random.rand(k)]: [k] numbers. *)
Definition rand (R : RandomState) (k : nat) : Np.vector :=
  map (uniform R) (seq 0 k).

(** [np.random.randint(high)]: an integer of [0, high), or [ValueError] when
    that range is empty. *)
Definition randint (R : RandomState) (call : nat) (high : nat) : result nat :=
  match high with
  | O => Raise ValueError
  | S _ => Ok (integers R call mod high)%nat
  end.

(* ------------------------------------------------------------------ *)
(** ** The object and its methods *)

(** A [Perceptron] instance.  An attribute that has not been assigned yet
    is [None]. *)
Record Perceptron : Type :=
  { w : option Np.vector; history : option (list Num.npfloat) }.

(** [Perceptron()]: the constructor assigns nothing. *)
Definition init : Perceptron := {| w := None; history := None |}.

(** A method body: it runs on the object, may change it, and returns a
    value or raises. *)
Definition M (A : Type) : Type := Perceptron -> result A * Perceptron.

Definition ret {A : Type} (a : A) : M A := fun self => (Ok a, self).

Definition bind {A B : Type} (m : M A) (f : A -> M B) : M B :=
  fun self =>
    match m self with
    | (Ok a, self') => f a self'
    | (Raise e, self') => (Raise e, self')
    end.

Definition lift {A : Type} (r : result A) : M A := fun self => (r, self).

Declare Scope method_scope.
Delimit Scope method_scope with method.
Notation "x <- m ;; k" := (bind m (fun x => k))
  (at level 61, m at next level, right associativity) : method_scope.
Notation "m ;; k" := (bind m (fun _ => k))
  (at level 61, right associativity) : method_scope.
Local Open Scope method_scope.

(** Reading and assigning the attributes. *)
Definition get_w : M Np.vector :=
  fun self =>
    match w self with
    | Some v => (Ok v, self)
    | None => (Raise AttributeError, self)
    end.

Definition set_w (v : Np.vector) : M unit :=
  fun self => (Ok tt, {| w := Some v; history := history self |}).

Definition set_history (h : list Num.npfloat) : M unit :=
  fun self => (Ok tt, {| w := w self; history := Some h |}).

(** [self.history.append(v)]. *)
Definition history_append (v : Num.npfloat) : M unit :=
  fun self =>
    match history self with
    | Some h => (Ok tt, {| w := w self; history := Some (h ++ [v]) |})
    | None => (Raise AttributeError, self)
    end.

(** [for k in l: body(k)]. *)
Fixpoint for_each {A : Type} (l : list A) (body : A -> M unit) : M unit :=
  match l with
  | [] => ret tt
  | k :: l' => body k ;; for_each l' body
  end.

(** [range(n)] for a Python integer [n]: empty when [n] is not positive. *)
Definition range (n : Z) : list nat := seq 0 (Z.to_nat n).

(** [validation(self, X)] on one row: [np.sign(np.dot(x, self.w))]. *)
Definition validation_row (x : Np.vector) : M Q :=
  w_ <- get_w ;;
  d <- lift (Np.dot_vv x w_) ;;
  ret (Num.sign d).

(** [validation(self, X)] on a matrix: [np.sign(np.dot(X, self.w))]. *)
Definition validation (X : Np.matrix) : M Np.vector :=
  w_ <- get_w ;;
  d <- lift (Np.dot_mv X w_) ;;
  ret (map Num.sign d).

(** [score(self, X, y)]. *)
Definition score (X : Np.matrix) (y : Np.vector) : M Num.npfloat :=
  let y_ := Np.shift_labels y in
  let X_ := Np.append_ones X in
  s <- validation X_ ;;
  d <- lift (Np.dot_vv s y_) ;;
  ret (Num.true_divide d (Np.nrows X_)).

(** [predict(self, X)]: [(np.sign(np.dot(X, self.w)) + 1) // 2]. *)
Definition predict (X : Np.matrix) : M Np.vector :=
  w_ <- get_w ;;
  d <- lift (Np.dot_mv X w_) ;;
  ret (map (fun v => Num.floor_divide (Num.sign v + 1) 2) d).

(** The assignment to [self.w] in the loop of [fit] (line 42), for the
    drawn index [i]:
    [self.w + np.where(y_[i]*self.validation(X_[i]) < 0, 1, 0)*y_[i]*X_[i]]. *)
Definition update_w (X_ : Np.matrix) (y : Np.vector) (i : nat) : M unit :=
  let y_ := Np.shift_labels y in
  w_ <- get_w ;;
  yi <- lift (Np.getitem y_ i) ;;
  xi <- lift (Np.getitem (Np.rows X_) i) ;;
  s <- validation_row xi ;;
  let c := Num.where10 (Num.ltb (yi * s) 0) in
  w' <- lift (Np.add w_ (Np.scale (c * yi) xi)) ;;
  set_w w'.

(** One pass through the loop body of [fit]; [k] counts the passes. *)
Definition fit_body (R : RandomState) (X_ X : Np.matrix) (y : Np.vector)
    (k : nat) : M unit :=
  i <- lift (randint R k (Np.nrows X_)) ;;
  update_w X_ y i ;;
  v <- score X y ;;
  history_append v.

(** [fit(self, X, y, max_steps)]. *)
Definition fit (R : RandomState) (X : Np.matrix) (y : Np.vector)
    (max_steps : Z) : M unit :=
  let X_ := Np.append_ones X in
  set_w (rand R (Np.ncols X_)) ;;
  set_history [] ;;
  for_each (range max_steps) (fit_body R X_ X y).

(* ------------------------------------------------------------------ *)
(** ** Quantities the statements below talk about *)

(** The index drawn by the [k]-th pass of the loop of [fit]. *)
Definition drawn (R : RandomState) (k : nat) (X : Np.matrix) : nat :=
  (integers R k mod Np.nrows X)%nat.

(** Row [i] of the augmented matrix. *)
Definition aug_row (X : Np.matrix) (i : nat) : Np.vector :=
  nth i (Np.rows X) [] ++ [1].

(** Entry [i] of the shifted labels. *)
Definition shifted (y : Np.vector) (i : nat) : Q := 2 * nth i y 0 - 1.

(** The array that line 42 assigns to [self.w] when the old value is [w0]
    and the drawn index is [i]. *)
Definition step_w (w0 : Np.vector) (X : Np.matrix) (y : Np.vector) (i : nat)
    : Np.vector :=
  let xi := aug_row X i in
  let yi := shifted y i in
  let c := Num.where10 (Num.ltb (yi * Num.sign (Np.inner xi w0)) 0) in
  Np.zip_add w0 (Np.scale (c * yi) xi).

(** The update rule of the perceptron for a sign function [sgn]: from [w0],
    with shifted label [yi] and augmented row [xi], the next weights [w1]
    are [w0 + yi * xi] when [yi * sgn (xi . w0) < 0] and [w0] otherwise. *)
Definition update_rule (sgn : Q -> Q) (w0 : Np.vector) (yi : Q)
    (xi w1 : Np.vector) : Prop :=
  (yi * sgn (Np.inner xi w0) < 0 ->
     Np.vec_eq w1 (Np.zip_add w0 (Np.scale yi xi))) /\
  (~ yi * sgn (Np.inner xi w0) < 0 -> Np.vec_eq w1 w0).

(** The sign function as the glossary of the specification words it:
    negative values to -1, all others, zero included, to +1. *)
Definition sign_glossary (v : Q) : Q := if Num.ltb v 0 then -1 else 1.

(** The label the specification words for [predict]: 0 for a negative dot
    product, 1 otherwise, zero included. *)
Definition label_glossary (d : Q) : Q := if Num.ltb d 0 then 0 else 1.

(** The score as the specification words it: the signs of the activations
    of the augmented rows, their dot product with the shifted labels,
    divided by the number of rows. *)
Definition activation_signs (w0 : Np.vector) (X : Np.matrix) : Np.vector :=
  map (fun r => Num.sign (Np.inner (r ++ [1]) w0)) (Np.rows X).

Definition score_formula (w0 : Np.vector) (X : Np.matrix) (y : Np.vector)
    : Num.npfloat :=
  Num.true_divide (Np.inner (activation_signs w0 X) (Np.shift_labels y))
                  (Np.nrows X).

(** A score between [lo] and [hi]. *)
Definition between (lo hi : Q) (v : Num.npfloat) : Prop :=
  match v with
  | Num.Finite q => lo <= q /\ q <= hi
  | _ => False
  end.

(** Labels are 0 or 1. *)
Definition binary_labels (y : Np.vector) : Prop :=
  Forall (fun v => v == 0 \/ v == 1) y.

(** Sample data for the examples. *)
Definition R_half : RandomState :=
  {| uniform := fun _ => 1 # 2; integers := fun _ => 2%nat |}.

Definition X_ones : Np.matrix := Np.Matrix 1 [[1]; [1]; [1]].

Definition y_001 : Np.vector := [0; 0; 1].

(** The activation of a row: the dot product of the augmented row with the
    weights. *)
Definition activation (w0 r : Np.vector) : Q := Np.inner (r ++ [1]) w0.

(** A row is classified right when its activation is positive and its
    label is 1, or negative and its label is 0; wrong when it is the other
    way round.  A row of activation zero is neither. *)
Definition classified_right (w0 r : Np.vector) (yi : Q) : bool :=
  if Qeq_bool yi 1 then Num.ltb 0 (activation w0 r)
  else Num.ltb (activation w0 r) 0.

Definition classified_wrong (w0 r : Np.vector) (yi : Q) : bool :=
  if Qeq_bool yi 1 then Num.ltb (activation w0 r) 0
  else Num.ltb 0 (activation w0 r).

(** A truth value as the number 1 or 0. *)
Definition flag (b : bool) : Q := if b then 1 else 0.

(** The number of rows, paired with their labels, that satisfy [f]. *)
Fixpoint count_rows (f : Np.vector -> Q -> bool) (rs : list Np.vector)
    (y : Np.vector) : nat :=
  match rs, y with
  | r :: rs', yi :: y' => ((if f r yi then 1 else 0) + count_rows f rs' y')%nat
  | _, _ => 0%nat
  end.

(** No row is misclassified by [w0]: the test of line 42 fails at every
    index. *)
Definition settled (w0 : Np.vector) (X : Np.matrix) (y : Np.vector) : Prop :=
  forall i : nat,
    (i < Np.nrows X)%nat ->
    ~ shifted y i * Num.sign (Np.inner (aug_row X i) w0) < 0.

(** The score as the specification states it, written without the
    operations of the embedding, for a sign function [sgn].  [sum_to n f]
    is [f 0 + ... + f (n-1)]; [aug_entry X i j] is entry [(i, j)] of [X]
    with a column of ones appended; [agreement_formula] is the dot product
    of the signs of [X~ . w0] with [2*y - 1], divided by the number of
    rows. *)
Fixpoint sum_to (n : nat) (f : nat -> Q) : Q :=
  match n with
  | O => 0
  | S k => sum_to k f + f k
  end.

Definition aug_entry (X : Np.matrix) (i j : nat) : Q :=
  if (j <? Np.ncols X)%nat then nth j (nth i (Np.rows X) []) 0 else 1.

Definition agreement_formula (sgn : Q -> Q) (w0 : Np.vector) (X : Np.matrix)
    (y : Np.vector) : Q :=
  sum_to (Np.nrows X)
         (fun i =>
            sgn (sum_to (S (Np.ncols X))
                        (fun j => aug_entry X i j * nth j w0 0))
            * (2 * nth i y 0 - 1))
  / inject_Z (Z.of_nat (Np.nrows X)).

(** The three-valued sign, stated with [<=]: 0 at zero, +1 above, -1
    below. *)
Definition sign_three (v : Q) : Q :=
  if Qle_bool 0 v then (if Qle_bool v 0 then 0 else 1) else -1.

(* ------------------------------------------------------------------ *)
(** ** Numbers: basic facts *)

Lemma ltb_lt (a b : Q) : Num.ltb a b = true <-> a < b.
Proof.
  unfold Num.ltb. rewrite Qlt_alt.
  destruct (a ?= b); split; intro H; try reflexivity; discriminate H.
Qed.

Lemma ltb_nlt (a b : Q) : Num.ltb a b = false <-> ~ a < b.
Proof.
  rewrite <- ltb_lt. destruct (Num.ltb a b); split; intro H;
    try reflexivity; try discriminate H.
  - exfalso. apply H. reflexivity.
  - intro H'. discriminate H'.
Qed.

Lemma sign_neg (v : Q) : v < 0 -> Num.sign v = -1.
Proof. unfold Num.sign. rewrite Qlt_alt. intros ->. reflexivity. Qed.

Lemma sign_zero (v : Q) : v == 0 -> Num.sign v = 0.
Proof. unfold Num.sign. rewrite Qeq_alt. intros ->. reflexivity. Qed.

Lemma sign_pos (v : Q) : 0 < v -> Num.sign v = 1.
Proof. unfold Num.sign. rewrite Qgt_alt. intros ->. reflexivity. Qed.

Lemma sign_cases (v : Q) :
  (v < 0 /\ Num.sign v = -1) \/ (v == 0 /\ Num.sign v = 0) \/
  (0 < v /\ Num.sign v = 1).
Proof.
  destruct (Q_dec v 0) as [[H | H] | H].
  - left. split; [exact H | apply sign_neg; exact H].
  - right. right. split; [exact H | apply sign_pos; exact H].
  - right. left. split; [exact H | apply sign_zero; exact H].
Qed.

Lemma sign_range (v : Q) : -1 <= Num.sign v /\ Num.sign v <= 1.
Proof.
  destruct (sign_cases v) as [[_ ->] | [[_ ->] | [_ ->]]]; split; discriminate.
Qed.

(** The label [predict] computes from a dot product. *)
Lemma label_cases (d : Q) :
  Num.floor_divide (Num.sign d + 1) 2 = if Num.ltb 0 d then 1 else 0.
Proof.
  destruct (sign_cases d) as [[H ->] | [[H ->] | [H ->]]].
  - assert (E : Num.ltb 0 d = false) by (apply ltb_nlt; lra). rewrite E. reflexivity.
  - assert (E : Num.ltb 0 d = false) by (apply ltb_nlt; lra). rewrite E. reflexivity.
  - assert (E : Num.ltb 0 d = true) by (apply ltb_lt; lra). rewrite E. reflexivity.
Qed.

(* ------------------------------------------------------------------ *)
(** ** Arrays: basic facts *)

Lemma zip_add_length (a b : Np.vector) :
  length a = length b -> length (Np.zip_add a b) = length a.
Proof.
  revert b. induction a as [| x a IH]; intros [| z b] H; simpl in *;
    try reflexivity; try discriminate H.
  f_equal. apply IH. injection H as H. exact H.
Qed.

Lemma scale_length (c : Q) (v : Np.vector) : length (Np.scale c v) = length v.
Proof. apply length_map. Qed.

Lemma add_same_length (a b : Np.vector) :
  length a = length b -> Np.add a b = Ok (Np.zip_add a b).
Proof. intro H. unfold Np.add. rewrite H, Nat.eqb_refl. reflexivity. Qed.

(** Adding a zero multiple changes no entry. *)
Lemma zip_add_zero (a b : Np.vector) (c : Q) :
  c == 0 -> length a = length b ->
  Np.vec_eq (Np.zip_add a (Np.scale c b)) a.
Proof.
  intros Hc. revert b. induction a as [| x a IH]; intros [| z b] H; simpl in *;
    try discriminate H; constructor.
  - rewrite Hc. ring.
  - apply IH. injection H as H. exact H.
Qed.

Lemma zip_add_scale_eq (a b : Np.vector) (c d : Q) :
  c == d ->
  Np.vec_eq (Np.zip_add a (Np.scale c b)) (Np.zip_add a (Np.scale d b)).
Proof.
  intros Hc. revert b. induction a as [| x a IH]; intros [| z b]; simpl;
    constructor.
  - rewrite Hc. reflexivity.
  - apply IH.
Qed.

Lemma getitem_nth {A : Type} (v : list A) (i : nat) (d : A) :
  (i < length v)%nat -> Np.getitem v i = Ok (nth i v d).
Proof.
  intro H. unfold Np.getitem.
  rewrite (nth_error_nth' v d H). reflexivity.
Qed.

Lemma aug_rows_nth (X : Np.matrix) (i : nat) :
  (i < Np.nrows X)%nat ->
  nth i (Np.rows (Np.append_ones X)) [] = aug_row X i.
Proof.
  intro H. unfold aug_row. simpl.
  rewrite (nth_indep _ [] ([] ++ [1])) by (rewrite length_map; exact H).
  apply (map_nth (fun r => r ++ [1])).
Qed.

Lemma aug_row_length (X : Np.matrix) (i : nat) :
  Np.wf X -> (i < Np.nrows X)%nat -> length (aug_row X i) = S (Np.ncols X).
Proof.
  intros Hwf Hi. unfold aug_row. rewrite length_app. simpl.
  unfold Np.wf in Hwf. rewrite Forall_forall in Hwf.
  rewrite (Hwf (nth i (Np.rows X) [])) by (apply nth_In; exact Hi).
  lia.
Qed.

Lemma shifted_nth (y : Np.vector) (i : nat) :
  (i < length y)%nat -> nth i (Np.shift_labels y) 0 = shifted y i.
Proof.
  intro H. unfold shifted, Np.shift_labels.
  rewrite (nth_indep _ 0 (2 * 0 - 1)) by (rewrite length_map; exact H).
  apply (map_nth (fun v => 2 * v - 1)).
Qed.

Lemma step_w_length (w0 : Np.vector) (X : Np.matrix) (y : Np.vector) (i : nat) :
  Np.wf X -> (i < Np.nrows X)%nat -> length w0 = S (Np.ncols X) ->
  length (step_w w0 X y i) = S (Np.ncols X).
Proof.
  intros Hwf Hi Hw. unfold step_w.
  rewrite zip_add_length; [exact Hw |].
  rewrite scale_length, aug_row_length by assumption. exact Hw.
Qed.

Lemma rand_length (R : RandomState) (k : nat) : length (rand R k) = k.
Proof. unfold rand. rewrite length_map. apply length_seq. Qed.

Lemma drawn_lt (R : RandomState) (k : nat) (X : Np.matrix) :
  (0 < Np.nrows X)%nat -> (drawn R k X < Np.nrows X)%nat.
Proof. intro H. unfold drawn. apply Nat.mod_upper_bound. lia. Qed.

Lemma randint_drawn (R : RandomState) (k : nat) (X : Np.matrix) :
  (0 < Np.nrows X)%nat ->
  randint R k (Np.nrows (Np.append_ones X)) = Ok (drawn R k X).
Proof.
  intro H. unfold randint, drawn, Np.nrows in *. simpl.
  destruct (Np.rows X) as [| r l]; [simpl in H; lia |].
  simpl. rewrite length_map. reflexivity.
Qed.

Lemma activation_signs_eq (w0 : Np.vector) (X : Np.matrix) :
  map Num.sign (map (fun r => Np.inner r w0) (Np.rows (Np.append_ones X)))
  = activation_signs w0 X.
Proof. unfold activation_signs. simpl. rewrite !map_map. reflexivity. Qed.

Lemma activation_signs_length (w0 : Np.vector) (X : Np.matrix) :
  length (activation_signs w0 X) = Np.nrows X.
Proof. apply length_map. Qed.

(* ------------------------------------------------------------------ *)
(** ** Running the methods *)

(** Reading [self.w] on an object that has none raises, whatever follows. *)
Lemma get_w_unset {A : Type} (self : Perceptron) (k : Np.vector -> M A) :
  w self = None -> bind get_w k self = (Raise AttributeError, self).
Proof. intro H. unfold bind, get_w. rewrite H. reflexivity. Qed.

Lemma get_w_set {A : Type} (self : Perceptron) (w0 : Np.vector)
    (k : Np.vector -> M A) :
  w self = Some w0 -> bind get_w k self = k w0 self.
Proof. intro H. unfold bind, get_w. rewrite H. reflexivity. Qed.

Lemma validation_run (self : Perceptron) (w0 : Np.vector) (X : Np.matrix) :
  w self = Some w0 -> length w0 = S (Np.ncols X) ->
  validation (Np.append_ones X) self = (Ok (activation_signs w0 X), self).
Proof.
  intros Hw Hlen. unfold validation. rewrite (get_w_set _ w0) by exact Hw.
  unfold bind, lift, ret, Np.dot_mv. simpl Np.ncols.
  rewrite Hlen, Nat.eqb_refl, activation_signs_eq. reflexivity.
Qed.

Lemma validation_row_run (self : Perceptron) (w0 x : Np.vector) :
  w self = Some w0 -> length x = length w0 ->
  validation_row x self = (Ok (Num.sign (Np.inner x w0)), self).
Proof.
  intros Hw Hlen. unfold validation_row. rewrite (get_w_set _ w0) by exact Hw.
  unfold bind, lift, ret, Np.dot_vv. rewrite Hlen, Nat.eqb_refl. reflexivity.
Qed.

Lemma score_run (self : Perceptron) (w0 : Np.vector) (X : Np.matrix)
    (y : Np.vector) :
  w self = Some w0 -> length w0 = S (Np.ncols X) -> length y = Np.nrows X ->
  score X y self = (Ok (score_formula w0 X y), self).
Proof.
  intros Hw Hlen Hy. unfold score, bind.
  rewrite (validation_run self w0) by assumption.
  unfold lift, ret, Np.dot_vv.
  rewrite activation_signs_length.
  unfold Np.shift_labels at 1. rewrite length_map, Hy, Nat.eqb_refl.
  unfold score_formula, Np.nrows. simpl. rewrite length_map. reflexivity.
Qed.

Lemma predict_run (self : Perceptron) (w0 : Np.vector) (X : Np.matrix) :
  w self = Some w0 -> Np.ncols X = length w0 ->
  predict X self =
  (Ok (map (fun r => Num.floor_divide (Num.sign (Np.inner r w0) + 1) 2)
           (Np.rows X)), self).
Proof.
  intros Hw Hlen. unfold predict. rewrite (get_w_set _ w0) by exact Hw.
  unfold bind, lift, ret, Np.dot_mv. rewrite Hlen, Nat.eqb_refl, map_map.
  reflexivity.
Qed.

Lemma predict_shape (self : Perceptron) (w0 : Np.vector) (X : Np.matrix) :
  w self = Some w0 -> Np.ncols X <> length w0 ->
  predict X self = (Raise ValueError, self).
Proof.
  intros Hw Hlen. unfold predict. rewrite (get_w_set _ w0) by exact Hw.
  unfold bind, lift, Np.dot_mv.
  apply Nat.eqb_neq in Hlen. rewrite Hlen. reflexivity.
Qed.

Lemma update_w_run (w0 : Np.vector) (h : option (list Num.npfloat))
    (X : Np.matrix) (y : Np.vector) (i : nat) :
  Np.wf X -> (i < Np.nrows X)%nat -> length y = Np.nrows X ->
  length w0 = S (Np.ncols X) ->
  update_w (Np.append_ones X) y i {| w := Some w0; history := h |} =
  (Ok tt, {| w := Some (step_w w0 X y i); history := h |}).
Proof.
  intros Hwf Hi Hy Hw. unfold update_w.
  rewrite (get_w_set _ w0) by reflexivity.
  assert (Hxl : length (aug_row X i) = length w0)
    by (rewrite Hw; apply aug_row_length; assumption).
  unfold bind at 1.
  rewrite (getitem_nth _ i 0)
    by (unfold Np.shift_labels; rewrite length_map, Hy; exact Hi).
  rewrite shifted_nth by (rewrite Hy; exact Hi).
  unfold lift at 1. unfold bind at 1.
  rewrite (@getitem_nth Np.vector _ i [])
    by (simpl; rewrite length_map; exact Hi).
  rewrite aug_rows_nth by exact Hi.
  unfold lift at 1. unfold bind at 1.
  rewrite (validation_row_run _ w0) by (reflexivity || exact Hxl).
  unfold bind, lift, set_w.
  rewrite add_same_length by (rewrite scale_length; symmetry; exact Hxl).
  reflexivity.
Qed.

Lemma fit_body_run (R : RandomState) (X : Np.matrix) (y : Np.vector) (k : nat)
    (w0 : Np.vector) (h : list Num.npfloat) :
  Np.wf X -> (0 < Np.nrows X)%nat -> length y = Np.nrows X ->
  length w0 = S (Np.ncols X) ->
  fit_body R (Np.append_ones X) X y k {| w := Some w0; history := Some h |} =
  (Ok tt,
   {| w := Some (step_w w0 X y (drawn R k X));
      history := Some (h ++ [score_formula (step_w w0 X y (drawn R k X)) X y]) |}).
Proof.
  intros Hwf Hn Hy Hw. unfold fit_body.
  rewrite randint_drawn by exact Hn.
  unfold bind at 1. unfold lift at 1. unfold bind at 1.
  rewrite update_w_run by (try assumption; apply drawn_lt; exact Hn).
  unfold bind.
  rewrite (score_run _ (step_w w0 X y (drawn R k X)));
    [reflexivity | reflexivity | | exact Hy].
  apply step_w_length; try assumption. apply drawn_lt. exact Hn.
Qed.

(* ------------------------------------------------------------------ *)
(** ** The loop of [fit] *)

Lemma for_each_app {A : Type} (l1 l2 : list A) (body : A -> M unit)
    (self : Perceptron) :
  for_each (l1 ++ l2) body self
  = bind (for_each l1 body) (fun _ => for_each l2 body) self.
Proof.
  revert self. induction l1 as [| k l1 IH]; intro self; simpl.
  - reflexivity.
  - unfold bind. destruct (body k self) as [[[] | e] self'].
    + rewrite IH. reflexivity.
    + reflexivity.
Qed.

Lemma range_length (n : Z) : (0 <= n)%Z -> Z.of_nat (length (range n)) = n.
Proof. intro H. unfold range. rewrite length_seq. apply Z2Nat.id. exact H. Qed.

Section Loop.

Variable R : RandomState.
Variable X : Np.matrix.
Variable y : Np.vector.
Hypothesis X_wf : Np.wf X.
Hypothesis X_rows : (0 < Np.nrows X)%nat.
Hypothesis y_length : length y = Np.nrows X.

(** A property of scores that every weight vector of the right length
    gives. *)
Variable P : Num.npfloat -> Prop.
Hypothesis P_score :
  forall w0, length w0 = S (Np.ncols X) -> P (score_formula w0 X y).

(** The passes run one after the other, none is skipped and none stops the
    loop: each leaves weights of the same length and one more score. *)
Lemma fit_loop_run (ks : list nat) :
  forall (w0 : Np.vector) (h : list Num.npfloat),
    length w0 = S (Np.ncols X) ->
    exists (w1 : Np.vector) (hs : list Num.npfloat),
      for_each ks (fit_body R (Np.append_ones X) X y)
               {| w := Some w0; history := Some h |}
      = (Ok tt, {| w := Some w1; history := Some (h ++ hs) |})
      /\ length w1 = S (Np.ncols X)
      /\ length hs = length ks
      /\ Forall P hs.
Proof.
  induction ks as [| k ks IH]; intros w0 h Hw.
  - exists w0, []. rewrite app_nil_r. repeat split; [exact Hw | constructor].
  - simpl for_each. unfold bind. rewrite fit_body_run by assumption.
    assert (Hw1 : length (step_w w0 X y (drawn R k X)) = S (Np.ncols X))
      by (apply step_w_length; try assumption; apply drawn_lt; exact X_rows).
    destruct (IH _ (h ++ [score_formula (step_w w0 X y (drawn R k X)) X y]) Hw1)
      as (w1 & hs & Hrun & Hlen & Hhs & HP).
    exists w1, (score_formula (step_w w0 X y (drawn R k X)) X y :: hs).
    rewrite Hrun, <- app_assoc. simpl.
    repeat split; [exact Hlen | f_equal; exact Hhs |].
    constructor; [apply P_score; exact Hw1 | exact HP].
Qed.

End Loop.

(** [fit] on well-shaped data returns, whatever the object held before. *)
Lemma fit_run (P : Num.npfloat -> Prop) (R : RandomState) (X : Np.matrix)
    (y : Np.vector) (max_steps : Z) (self : Perceptron) :
  Np.wf X -> (0 < Np.nrows X)%nat -> length y = Np.nrows X ->
  (forall w0, length w0 = S (Np.ncols X) -> P (score_formula w0 X y)) ->
  exists (w1 : Np.vector) (h : list Num.npfloat),
    fit R X y max_steps self
    = (Ok tt, {| w := Some w1; history := Some h |})
    /\ length w1 = S (Np.ncols X)
    /\ length h = length (range max_steps)
    /\ Forall P h.
Proof.
  intros Hwf Hn Hy HP. unfold fit, bind, set_w, set_history. simpl.
  destruct (fit_loop_run R X y Hwf Hn Hy P HP (range max_steps)
              (rand R (S (Np.ncols X))) [] (rand_length _ _))
    as (w1 & hs & Hrun & Hlen & Hhs & Hall).
  exists w1, hs. rewrite Hrun. simpl. repeat split; assumption.
Qed.

(** With no pass to run, [fit] only assigns the two attributes; this needs
    nothing of the data. *)
Lemma fit_no_steps (R : RandomState) (X : Np.matrix) (y : Np.vector)
    (max_steps : Z) (self : Perceptron) :
  (max_steps <= 0)%Z ->
  fit R X y max_steps self
  = (Ok tt, {| w := Some (rand R (S (Np.ncols X))); history := Some [] |}).
Proof.
  intro H. unfold fit, range.
  replace (Z.to_nat max_steps) with 0%nat by lia. reflexivity.
Qed.

(* ------------------------------------------------------------------ *)
(** ** The range of the score *)

Lemma shift_labels_unit (y : Np.vector) :
  binary_labels y ->
  Forall (fun b => b == -1 \/ b == 1) (Np.shift_labels y).
Proof.
  unfold binary_labels, Np.shift_labels. intro H.
  induction H as [| v y Hv _ IH]; simpl; constructor.
  - destruct Hv as [Hv | Hv]; rewrite Hv; [left | right]; ring.
  - exact IH.
Qed.

Lemma count_succ (n : nat) :
  inject_Z (Z.of_nat (S n)) == inject_Z (Z.of_nat n) + 1.
Proof. rewrite Nat2Z.inj_succ. unfold Z.succ. rewrite inject_Z_plus. reflexivity. Qed.

(** A dot product of [n] entries of absolute value at most 1 with [n]
    entries that are -1 or +1 lies between [-n] and [n]. *)
Lemma inner_bound (s : Np.vector) :
  forall y' : Np.vector,
    Forall (fun a => -1 <= a /\ a <= 1) s ->
    Forall (fun b => b == -1 \/ b == 1) y' ->
    length s = length y' ->
    - inject_Z (Z.of_nat (length s)) <= Np.inner s y'
    /\ Np.inner s y' <= inject_Z (Z.of_nat (length s)).
Proof.
  induction s as [| a s IH]; intros [| b y'] Hs Hy Hlen; simpl in Hlen;
    try discriminate Hlen.
  - simpl. split; discriminate.
  - inversion Hs as [| ? ? [Ha1 Ha2] Hs']. inversion Hy as [| ? ? Hb Hy']. subst.
    injection Hlen as Hlen.
    destruct (IH y' Hs' Hy' Hlen) as [IH1 IH2].
    change (length (a :: s)) with (S (length s)). rewrite count_succ.
    change (Np.inner (a :: s) (b :: y')) with (a * b + Np.inner s y').
    destruct Hb as [Hb | Hb]; rewrite Hb; split; lra.
Qed.

Lemma true_divide_between (d : Q) (n : nat) :
  (0 < n)%nat ->
  - inject_Z (Z.of_nat n) <= d -> d <= inject_Z (Z.of_nat n) ->
  between (-1) 1 (Num.true_divide d n).
Proof.
  intros Hn Hlo Hhi. destruct n as [| n]; [lia |].
  unfold Num.true_divide, between.
  assert (Hpos : 0 < inject_Z (Z.of_nat (S n))).
  { change 0 with (inject_Z 0). rewrite <- Zlt_Qlt. lia. }
  split.
  - apply Qle_shift_div_l; [exact Hpos | lra].
  - apply Qle_shift_div_r; [exact Hpos | lra].
Qed.

Lemma activation_signs_unit (w0 : Np.vector) (X : Np.matrix) :
  Forall (fun a => -1 <= a /\ a <= 1) (activation_signs w0 X).
Proof.
  unfold activation_signs. apply Forall_forall. intros a Ha.
  apply in_map_iff in Ha. destruct Ha as (r & <- & _). apply sign_range.
Qed.

Lemma score_formula_between (w0 : Np.vector) (X : Np.matrix) (y : Np.vector) :
  (0 < Np.nrows X)%nat -> length y = Np.nrows X -> binary_labels y ->
  between (-1) 1 (score_formula w0 X y).
Proof.
  intros Hn Hy Hb. unfold score_formula.
  assert (Hlen : length (activation_signs w0 X) = length (Np.shift_labels y)).
  { rewrite activation_signs_length. unfold Np.shift_labels.
    rewrite length_map. symmetry. exact Hy. }
  destruct (inner_bound _ _ (activation_signs_unit w0 X)
              (shift_labels_unit y Hb) Hlen) as [Hlo Hhi].
  rewrite activation_signs_length in Hlo, Hhi.
  apply true_divide_between; assumption.
Qed.

(* ------------------------------------------------------------------ *)
(** ** The training step *)

Lemma step_w_rule (w0 : Np.vector) (X : Np.matrix) (y : Np.vector) (i : nat) :
  Np.wf X -> (i < Np.nrows X)%nat -> length w0 = S (Np.ncols X) ->
  update_rule Num.sign w0 (shifted y i) (aug_row X i) (step_w w0 X y i).
Proof.
  intros Hwf Hi Hw. unfold update_rule, step_w. split; intro H.
  - apply ltb_lt in H. rewrite H. apply zip_add_scale_eq.
    unfold Num.where10. ring.
  - apply ltb_nlt in H. rewrite H. apply zip_add_zero.
    + unfold Num.where10. ring.
    + rewrite aug_row_length by assumption. exact Hw.
Qed.

(** C1, as amended.  One pass of the loop of [fit], from weights [w0] and
    with drawn index [i], returns normally, appends one score, and leaves
    weights [w1] such that, for the shifted label [y'_i = 2*y_i - 1] and
    [s = sign (X~_i . w0)] where [sign] is [numpy.sign] (0 at 0):
    [w1] is [w0 + y'_i * X~_i] if [y'_i * s < 0], and [w1] equals [w0],
    entry by entry, otherwise. *)
Theorem fit_step_update_rule (R : RandomState) (X : Np.matrix) (y : Np.vector)
    (k : nat) (w0 : Np.vector) (h : list Num.npfloat) :
  Np.wf X -> (0 < Np.nrows X)%nat -> length y = Np.nrows X ->
  length w0 = S (Np.ncols X) ->
  exists (w1 : Np.vector) (v : Num.npfloat),
    fit_body R (Np.append_ones X) X y k {| w := Some w0; history := Some h |}
    = (Ok tt, {| w := Some w1; history := Some (h ++ [v]) |})
    /\ update_rule Num.sign w0 (shifted y (drawn R k X))
                   (aug_row X (drawn R k X)) w1.
Proof.
  intros Hwf Hn Hy Hw.
  exists (step_w w0 X y (drawn R k X)),
         (score_formula (step_w w0 X y (drawn R k X)) X y).
  split.
  - apply fit_body_run; assumption.
  - apply step_w_rule; try assumption. apply drawn_lt. exact Hn.
Qed.

Lemma fit_step_update_rule_witness :
  Np.wf X_ones /\ (0 < Np.nrows X_ones)%nat /\
  length y_001 = Np.nrows X_ones /\
  length [1 # 2; 1 # 2] = S (Np.ncols X_ones) /\
  exists (w1 : Np.vector) (v : Num.npfloat),
    fit_body R_half (Np.append_ones X_ones) X_ones y_001 0
             {| w := Some [1 # 2; 1 # 2]; history := Some [] |}
    = (Ok tt, {| w := Some w1; history := Some ([] ++ [v]) |})
    /\ update_rule Num.sign [1 # 2; 1 # 2] (shifted y_001 (drawn R_half 0 X_ones))
                   (aug_row X_ones (drawn R_half 0 X_ones)) w1.
Proof.
  assert (Hwf : Np.wf X_ones) by (repeat constructor).
  assert (Hn : (0 < Np.nrows X_ones)%nat) by (vm_compute; lia).
  repeat split; try assumption.
  apply (fit_step_update_rule R_half X_ones y_001 0 [1 # 2; 1 # 2] []);
    [exact Hwf | exact Hn | reflexivity | reflexivity].
Defined.

(** C1, as stated, fails.  With the sign of the glossary (+1 at 0), a row
    of activation 0 and label 0 has [y'_i * s = -1 < 0], so the stated rule
    asks for [w0 - X~_i]; the code leaves [w0] as it is.  Here
    [X = [[-1]]], [y = [0]] and [w0 = [1/2, 1/2]], the weights [fit] starts
    from under [R_half]. *)
Lemma fit_step_glossary_sign_counterexample :
  exists (w1 : Np.vector) (v : Num.npfloat),
    fit_body R_half (Np.append_ones (Np.Matrix 1 [[-1]])) (Np.Matrix 1 [[-1]])
             [0] 0 {| w := Some (rand R_half 2); history := Some [] |}
    = (Ok tt, {| w := Some w1; history := Some [v] |})
    /\ ~ update_rule sign_glossary (rand R_half 2) (shifted [0] 0)
                     (aug_row (Np.Matrix 1 [[-1]]) 0) w1.
Proof.
  eexists. eexists. split.
  - vm_compute. reflexivity.
  - intros [H _].
    assert (Hlt : shifted [0] 0
                  * sign_glossary (Np.inner (aug_row (Np.Matrix 1 [[-1]]) 0)
                                            (rand R_half 2)) < 0)
      by (vm_compute; reflexivity).
    specialize (H Hlt). vm_compute in H.
    inversion H as [| ? ? ? ? Hq _]. vm_compute in Hq. discriminate Hq.
Qed.

(* ------------------------------------------------------------------ *)
(** ** The score *)

(** How [validation] and [score] fail. *)
Lemma validation_unset (self : Perceptron) (X : Np.matrix) :
  w self = None -> validation X self = (Raise AttributeError, self).
Proof. intro H. unfold validation. apply get_w_unset. exact H. Qed.

Lemma validation_shape (self : Perceptron) (w0 : Np.vector) (X : Np.matrix) :
  w self = Some w0 -> Np.ncols X <> length w0 ->
  validation X self = (Raise ValueError, self).
Proof.
  intros Hw Hlen. unfold validation. rewrite (get_w_set _ w0) by exact Hw.
  unfold bind, lift, Np.dot_mv.
  apply Nat.eqb_neq in Hlen. rewrite Hlen. reflexivity.
Qed.

Lemma score_raises (self : Perceptron) (X : Np.matrix) (y : Np.vector)
    (e : exn) :
  validation (Np.append_ones X) self = (Raise e, self) ->
  score X y self = (Raise e, self).
Proof. intro H. unfold score, bind. rewrite H. reflexivity. Qed.

(** C2, evaluated where it fails.  On three equal rows labelled 0, 0, 1 and
    weights [[1/2, 1/2]] every activation is positive, so the score is
    [(-1 - 1 + 1) / 3]: one pass of [fit] records [-1/3] in [history], and
    [score] returns the same value, which is not in [0, 1]. *)
Theorem score_below_zero :
  exists (self : Perceptron) (v : Num.npfloat),
    fit R_half X_ones y_001 1 init = (Ok tt, self)
    /\ history self = Some [v]
    /\ score X_ones y_001 self = (Ok v, self)
    /\ v = Num.Finite (-1 # 3)
    /\ ~ between 0 1 v.
Proof.
  exists {| w := Some [1 # 2; 1 # 2]; history := Some [Num.Finite (-1 # 3)] |},
         (Num.Finite (-1 # 3)).
  repeat split; try (vm_compute; reflexivity).
  intros [H _]. vm_compute in H. apply H. reflexivity.
Qed.

(** C10.  With labels 0 or 1, at least one row and [y] as long as [X] has
    rows: whatever [score] returns is a number of [-1, 1], for any weights;
    with weights of the right length it does return one; the value can be
    negative; and after [fit] every element of [history] is in [-1, 1]. *)
Theorem score_in_minus_one_one :
  (forall (self : Perceptron) (X : Np.matrix) (y : Np.vector),
      (0 < Np.nrows X)%nat -> length y = Np.nrows X -> binary_labels y ->
      (forall (v : Num.npfloat) (self' : Perceptron),
          score X y self = (Ok v, self') -> between (-1) 1 v)
      /\ (forall w0, w self = Some w0 -> length w0 = S (Np.ncols X) ->
            exists q, score X y self = (Ok (Num.Finite q), self)
                      /\ -1 <= q /\ q <= 1))
  /\ (exists (self : Perceptron) (X : Np.matrix) (y : Np.vector) (q : Q),
        (0 < Np.nrows X)%nat /\ length y = Np.nrows X /\ binary_labels y
        /\ score X y self = (Ok (Num.Finite q), self) /\ q < 0)
  /\ (forall (R : RandomState) (X : Np.matrix) (y : Np.vector)
             (max_steps : Z) (self : Perceptron),
        Np.wf X -> (0 < Np.nrows X)%nat -> length y = Np.nrows X ->
        binary_labels y ->
        exists (w1 : Np.vector) (h : list Num.npfloat),
          fit R X y max_steps self
          = (Ok tt, {| w := Some w1; history := Some h |})
          /\ Forall (between (-1) 1) h).
Proof.
  split; [| split].
  - intros self X y Hn Hy Hb.
    assert (Hdone : forall w0, w self = Some w0 -> length w0 = S (Np.ncols X) ->
                      score X y self = (Ok (score_formula w0 X y), self))
      by (intros w0 Hw Hlen; apply score_run; assumption).
    split.
    + intros v self' Hrun. destruct (w self) as [w0 |] eqn:Hw.
      * destruct (Nat.eq_dec (length w0) (S (Np.ncols X))) as [Hlen | Hlen].
        -- rewrite (Hdone w0 eq_refl Hlen) in Hrun. injection Hrun as <- _.
           apply score_formula_between; assumption.
        -- exfalso.
           rewrite (score_raises self X y ValueError) in Hrun;
             [discriminate Hrun |].
           apply (validation_shape self w0); [exact Hw |].
           simpl. congruence.
      * exfalso.
        rewrite (score_raises self X y AttributeError) in Hrun;
          [discriminate Hrun |].
        apply validation_unset. exact Hw.
    + intros w0 Hw Hlen.
      pose proof (score_formula_between w0 X y Hn Hy Hb) as Hr.
      rewrite (Hdone w0 Hw Hlen).
      destruct (score_formula w0 X y) as [q | | |]; simpl in Hr;
        try contradiction.
      exists q. split; [reflexivity | exact Hr].
  - exists {| w := Some [1 # 2; 1 # 2]; history := Some [] |},
           X_ones, y_001, (-1 # 3).
    repeat split; try (vm_compute; reflexivity); try (vm_compute; lia).
    unfold binary_labels, y_001.
    repeat constructor; (left; reflexivity) || (right; reflexivity).
  - intros R X y max_steps self Hwf Hn Hy Hb.
    destruct (fit_run (between (-1) 1) R X y max_steps self Hwf Hn Hy)
      as (w1 & h & Hrun & _ & _ & Hall).
    + intros w0 _. apply score_formula_between; assumption.
    + exists w1, h. split; assumption.
Qed.

Lemma binary_y_001 : binary_labels y_001.
Proof.
  unfold binary_labels, y_001.
  repeat constructor; (left; reflexivity) || (right; reflexivity).
Qed.

Lemma score_in_minus_one_one_witness :
  Np.wf X_ones /\ (0 < Np.nrows X_ones)%nat /\
  length y_001 = Np.nrows X_ones /\ binary_labels y_001 /\
  (exists q, score X_ones y_001 {| w := Some [1 # 2; 1 # 2]; history := None |}
             = (Ok (Num.Finite q),
                {| w := Some [1 # 2; 1 # 2]; history := None |})
             /\ -1 <= q /\ q <= 1) /\
  (exists (w1 : Np.vector) (h : list Num.npfloat),
      fit R_half X_ones y_001 3 init
      = (Ok tt, {| w := Some w1; history := Some h |})
      /\ Forall (between (-1) 1) h).
Proof.
  assert (Hwf : Np.wf X_ones) by (repeat constructor).
  assert (Hn : (0 < Np.nrows X_ones)%nat) by (vm_compute; lia).
  assert (Hy : length y_001 = Np.nrows X_ones) by reflexivity.
  destruct score_in_minus_one_one as (Hscore & _ & Hfit).
  split; [exact Hwf |]. split; [exact Hn |]. split; [exact Hy |].
  split; [exact binary_y_001 |]. split.
  - destruct (Hscore {| w := Some [1 # 2; 1 # 2]; history := None |}
                     X_ones y_001 Hn Hy binary_y_001) as [_ Hret].
    apply (Hret [1 # 2; 1 # 2]); reflexivity.
  - apply (Hfit R_half X_ones y_001 3%Z init Hwf Hn Hy binary_y_001).
Defined.

(* ------------------------------------------------------------------ *)
(** ** The sign of an activation *)

(** C4, as amended.  On a fitted object, [validation] returns the sign of
    each dot product with the weights, for one row and for a matrix alike,
    and that sign is -1 for a negative value, 0 for zero and +1 for a
    positive value. *)
Theorem validation_sign (self : Perceptron) (w0 : Np.vector) :
  w self = Some w0 ->
  (forall x : Np.vector,
      length x = length w0 ->
      exists s, validation_row x self = (Ok s, self)
                /\ (Np.inner x w0 < 0 -> s = -1)
                /\ (Np.inner x w0 == 0 -> s = 0)
                /\ (0 < Np.inner x w0 -> s = 1))
  /\ (forall X : Np.matrix,
        Np.ncols X = length w0 ->
        exists out, validation X self = (Ok out, self)
                    /\ out = map (fun r => Num.sign (Np.inner r w0)) (Np.rows X))
  /\ (forall v : Q,
        (v < 0 -> Num.sign v = -1) /\ (v == 0 -> Num.sign v = 0)
        /\ (0 < v -> Num.sign v = 1)).
Proof.
  intro Hw. split; [| split].
  - intros x Hlen. exists (Num.sign (Np.inner x w0)). split.
    + apply validation_row_run; assumption.
    + repeat split; [apply sign_neg | apply sign_zero | apply sign_pos].
  - intros X Hlen. eexists. split; [| reflexivity].
    unfold validation. rewrite (get_w_set _ w0) by exact Hw.
    unfold bind, lift, ret, Np.dot_mv. rewrite Hlen, Nat.eqb_refl, map_map.
    reflexivity.
  - intro v. repeat split; [apply sign_neg | apply sign_zero | apply sign_pos].
Qed.

Lemma validation_sign_witness :
  w {| w := Some [1 # 2; 1 # 2]; history := None |} = Some [1 # 2; 1 # 2] /\
  length [-1; 1] = length [1 # 2; 1 # 2] /\
  exists s, validation_row [-1; 1] {| w := Some [1 # 2; 1 # 2]; history := None |}
            = (Ok s, {| w := Some [1 # 2; 1 # 2]; history := None |})
            /\ (Np.inner [-1; 1] [1 # 2; 1 # 2] < 0 -> s = -1)
            /\ (Np.inner [-1; 1] [1 # 2; 1 # 2] == 0 -> s = 0)
            /\ (0 < Np.inner [-1; 1] [1 # 2; 1 # 2] -> s = 1).
Proof.
  split; [reflexivity |]. split; [reflexivity |].
  destruct (validation_sign {| w := Some [1 # 2; 1 # 2]; history := None |}
                            [1 # 2; 1 # 2] eq_refl) as [Hrow _].
  apply (Hrow [-1; 1]). reflexivity.
Defined.

(** C4, as stated, fails: the activation of the row [[-1, 1]] under the
    weights [[1/2, 1/2]] is 0 and [validation] gives it the sign 0, where
    the sign of the glossary is +1. *)
Lemma validation_sign_zero_counterexample :
  Np.inner [-1; 1] [1 # 2; 1 # 2] == 0
  /\ sign_glossary (Np.inner [-1; 1] [1 # 2; 1 # 2]) = 1
  /\ validation_row [-1; 1] {| w := Some [1 # 2; 1 # 2]; history := None |}
     = (Ok 0, {| w := Some [1 # 2; 1 # 2]; history := None |})
  /\ validation (Np.Matrix 2 [[-1; 1]])
                {| w := Some [1 # 2; 1 # 2]; history := None |}
     = (Ok [0], {| w := Some [1 # 2; 1 # 2]; history := None |})
  /\ ~ 0 == sign_glossary (Np.inner [-1; 1] [1 # 2; 1 # 2]).
Proof.
  split; [vm_compute; reflexivity |].
  split; [vm_compute; reflexivity |].
  split; [vm_compute; reflexivity |].
  split; [vm_compute; reflexivity |].
  intro H. vm_compute in H. discriminate H.
Qed.

(* ------------------------------------------------------------------ *)
(** ** Prediction *)

(** C3, as amended.  On a fitted object and a matrix with as many columns
    as the weights have entries, [predict] returns one label per row: 1
    when the dot product of the row with the weights is positive, 0 when it
    is negative, and 0 when it is zero. *)
Theorem predict_labels (self : Perceptron) (w0 : Np.vector) (X : Np.matrix) :
  w self = Some w0 -> Np.ncols X = length w0 ->
  exists out : Np.vector,
    predict X self = (Ok out, self)
    /\ length out = Np.nrows X
    /\ forall (i : nat) (x : Np.vector),
         nth_error (Np.rows X) i = Some x ->
         exists e, nth_error out i = Some e
                   /\ (0 < Np.inner x w0 -> e = 1)
                   /\ (Np.inner x w0 < 0 -> e = 0)
                   /\ (Np.inner x w0 == 0 -> e = 0).
Proof.
  intros Hw Hlen. eexists. split; [apply (predict_run self w0); assumption |].
  split; [apply length_map |].
  intros i x Hx. eexists. split; [apply map_nth_error; exact Hx |].
  rewrite label_cases.
  repeat split; intro H.
  - apply ltb_lt in H. rewrite H. reflexivity.
  - assert (E : Num.ltb 0 (Np.inner x w0) = false) by (apply ltb_nlt; lra).
    rewrite E. reflexivity.
  - assert (E : Num.ltb 0 (Np.inner x w0) = false) by (apply ltb_nlt; lra).
    rewrite E. reflexivity.
Qed.

Lemma predict_labels_witness :
  w {| w := Some [1 # 2; 1 # 2]; history := Some [] |} = Some [1 # 2; 1 # 2] /\
  Np.ncols (Np.Matrix 2 [[1; -1]; [1; 1]; [-3; 1]]) = length [1 # 2; 1 # 2] /\
  exists out : Np.vector,
    predict (Np.Matrix 2 [[1; -1]; [1; 1]; [-3; 1]])
            {| w := Some [1 # 2; 1 # 2]; history := Some [] |}
    = (Ok out, {| w := Some [1 # 2; 1 # 2]; history := Some [] |})
    /\ length out = Np.nrows (Np.Matrix 2 [[1; -1]; [1; 1]; [-3; 1]])
    /\ forall (i : nat) (x : Np.vector),
         nth_error (Np.rows (Np.Matrix 2 [[1; -1]; [1; 1]; [-3; 1]])) i = Some x ->
         exists e, nth_error out i = Some e
                   /\ (0 < Np.inner x [1 # 2; 1 # 2] -> e = 1)
                   /\ (Np.inner x [1 # 2; 1 # 2] < 0 -> e = 0)
                   /\ (Np.inner x [1 # 2; 1 # 2] == 0 -> e = 0).
Proof.
  split; [reflexivity |]. split; [reflexivity |].
  apply (predict_labels {| w := Some [1 # 2; 1 # 2]; history := Some [] |}
                        [1 # 2; 1 # 2]
                        (Np.Matrix 2 [[1; -1]; [1; 1]; [-3; 1]]));
    reflexivity.
Defined.

(** C3, as stated, fails.  After [fit] on one column under [R_half] the
    weights are [[1/2, 1/2]]; the row [[1, -1]] has dot product 0 with
    them, the stated label for it is 1, and [predict] returns 0. *)
Lemma predict_zero_counterexample :
  fit R_half X_ones y_001 0 init
  = (Ok tt, {| w := Some [1 # 2; 1 # 2]; history := Some [] |})
  /\ Np.inner [1; -1] [1 # 2; 1 # 2] == 0
  /\ label_glossary (Np.inner [1; -1] [1 # 2; 1 # 2]) = 1
  /\ predict (Np.Matrix 2 [[1; -1]])
             {| w := Some [1 # 2; 1 # 2]; history := Some [] |}
     = (Ok [0], {| w := Some [1 # 2; 1 # 2]; history := Some [] |})
  /\ ~ Np.vec_eq [0] (map (fun x => label_glossary (Np.inner x [1 # 2; 1 # 2]))
                          (Np.rows (Np.Matrix 2 [[1; -1]]))).
Proof.
  split; [vm_compute; reflexivity |].
  split; [vm_compute; reflexivity |].
  split; [vm_compute; reflexivity |].
  split; [vm_compute; reflexivity |].
  intro H. vm_compute in H.
  inversion H as [| ? ? ? ? Hq _]. vm_compute in Hq. discriminate Hq.
Qed.

(** C9.  On a fitted object and a matrix with as many columns as the
    weights have entries, [predict] returns one element per row and every
    element is 0 or 1, rows of dot product zero included. *)
Theorem predict_binary (self : Perceptron) (w0 : Np.vector) (X : Np.matrix) :
  w self = Some w0 -> Np.ncols X = length w0 ->
  exists out : Np.vector,
    predict X self = (Ok out, self)
    /\ length out = Np.nrows X
    /\ Forall (fun e => e = 0 \/ e = 1) out.
Proof.
  intros Hw Hlen. eexists. split; [apply (predict_run self w0); assumption |].
  split; [apply length_map |].
  apply Forall_forall. intros e He. apply in_map_iff in He.
  destruct He as (r & <- & _). rewrite label_cases.
  destruct (Num.ltb 0 (Np.inner r w0)); [right | left]; reflexivity.
Qed.

Lemma predict_binary_witness :
  w {| w := Some [1 # 2; 1 # 2]; history := Some [] |} = Some [1 # 2; 1 # 2] /\
  Np.ncols (Np.Matrix 2 [[1; -1]; [1; 1]; [-3; 1]]) = length [1 # 2; 1 # 2] /\
  exists out : Np.vector,
    predict (Np.Matrix 2 [[1; -1]; [1; 1]; [-3; 1]])
            {| w := Some [1 # 2; 1 # 2]; history := Some [] |}
    = (Ok out, {| w := Some [1 # 2; 1 # 2]; history := Some [] |})
    /\ length out = Np.nrows (Np.Matrix 2 [[1; -1]; [1; 1]; [-3; 1]])
    /\ Forall (fun e => e = 0 \/ e = 1) out.
Proof.
  split; [reflexivity |]. split; [reflexivity |].
  apply (predict_binary {| w := Some [1 # 2; 1 # 2]; history := Some [] |}
                        [1 # 2; 1 # 2]
                        (Np.Matrix 2 [[1; -1]; [1; 1]; [-3; 1]]));
    reflexivity.
Defined.

(** C6.  [predict] appends no column: after [fit] on a matrix of [p]
    columns the weights have [p + 1] entries, and [predict] on any matrix
    whose column count is not [p + 1], the training matrix included, raises
    the shape error and changes nothing, while on a matrix of [p + 1]
    columns it uses the rows as they are against the weights. *)
Theorem predict_no_augmentation (R : RandomState) (X : Np.matrix)
    (y : Np.vector) (max_steps : Z) (self0 : Perceptron) :
  Np.wf X -> (0 < Np.nrows X)%nat -> length y = Np.nrows X ->
  exists (self : Perceptron) (w1 : Np.vector),
    fit R X y max_steps self0 = (Ok tt, self)
    /\ w self = Some w1
    /\ length w1 = S (Np.ncols X)
    /\ predict X self = (Raise ValueError, self)
    /\ (forall X' : Np.matrix,
          Np.ncols X' <> length w1 ->
          predict X' self = (Raise ValueError, self))
    /\ (forall X' : Np.matrix,
          Np.ncols X' = length w1 ->
          predict X' self
          = (Ok (map (fun x => Num.floor_divide (Num.sign (Np.inner x w1) + 1) 2)
                     (Np.rows X')), self)).
Proof.
  intros Hwf Hn Hy.
  destruct (fit_run (fun _ => True) R X y max_steps self0 Hwf Hn Hy
                    (fun _ _ => I)) as (w1 & h & Hrun & Hlen & _ & _).
  exists {| w := Some w1; history := Some h |}, w1.
  split; [exact Hrun |]. split; [reflexivity |]. split; [exact Hlen |].
  split; [| split].
  - apply (predict_shape _ w1); [reflexivity | lia].
  - intros X' H. apply (predict_shape _ w1); [reflexivity | exact H].
  - intros X' H. apply (predict_run _ w1); [reflexivity | exact H].
Qed.

Lemma predict_no_augmentation_witness :
  Np.wf X_ones /\ (0 < Np.nrows X_ones)%nat /\
  length y_001 = Np.nrows X_ones /\
  exists (self : Perceptron) (w1 : Np.vector),
    fit R_half X_ones y_001 2 init = (Ok tt, self)
    /\ w self = Some w1
    /\ length w1 = S (Np.ncols X_ones)
    /\ predict X_ones self = (Raise ValueError, self)
    /\ (forall X' : Np.matrix,
          Np.ncols X' <> length w1 ->
          predict X' self = (Raise ValueError, self))
    /\ (forall X' : Np.matrix,
          Np.ncols X' = length w1 ->
          predict X' self
          = (Ok (map (fun x => Num.floor_divide (Num.sign (Np.inner x w1) + 1) 2)
                     (Np.rows X')), self)).
Proof.
  assert (Hwf : Np.wf X_ones) by (repeat constructor).
  assert (Hn : (0 < Np.nrows X_ones)%nat) by (vm_compute; lia).
  split; [exact Hwf |]. split; [exact Hn |]. split; [reflexivity |].
  apply (predict_no_augmentation R_half X_ones y_001 2%Z init);
    [exact Hwf | exact Hn | reflexivity].
Defined.

(** The scenario of the specification, run: after [fit] on two columns the
    weights have three entries, so [predict] on a matrix of three columns
    returns labels, and it is on two columns that it raises. *)
Example predict_after_two_columns :
  exists self : Perceptron,
    fit R_half (Np.Matrix 2 [[1; 0]; [0; 1]; [1; 1]; [0; 0]]) [1; 1; 1; 0] 0 init
    = (Ok tt, self)
    /\ predict (Np.Matrix 3 [[1; 0; 1]; [-1; -1; 1]]) self = (Ok [1; 0], self)
    /\ predict (Np.Matrix 2 [[1; 0]; [-1; -1]]) self = (Raise ValueError, self).
Proof.
  eexists. split; [vm_compute; reflexivity |].
  split; vm_compute; reflexivity.
Qed.

(** C8.  On a freshly constructed object, [score] and [predict] raise the
    missing-attribute error whatever their arguments, and the error reaches
    the caller: it is the result of the call. *)
Theorem unfitted_model_raises :
  (forall (X : Np.matrix) (y : Np.vector),
      score X y init = (Raise AttributeError, init))
  /\ (forall X : Np.matrix, predict X init = (Raise AttributeError, init)).
Proof.
  split.
  - intros X y. apply score_raises. apply validation_unset. reflexivity.
  - intro X. unfold predict. apply get_w_unset. reflexivity.
Qed.

(* ------------------------------------------------------------------ *)
(** ** The number of passes *)

Lemma range_extend (n : Z) :
  (0 <= n)%Z -> range (n + 1) = range n ++ [Z.to_nat n].
Proof.
  intro H. unfold range.
  replace (Z.to_nat (n + 1)) with (S (Z.to_nat n)) by lia.
  apply seq_S.
Qed.

(** One more step is one more pass after the others, run whatever they
    left. *)
Lemma fit_extend (R : RandomState) (X : Np.matrix) (y : Np.vector)
    (max_steps : Z) (self : Perceptron) :
  (0 <= max_steps)%Z ->
  fit R X y (max_steps + 1) self
  = bind (fit R X y max_steps)
         (fun _ => fit_body R (Np.append_ones X) X y (Z.to_nat max_steps)) self.
Proof.
  intro H. unfold fit. rewrite range_extend by exact H.
  unfold bind, set_w, set_history. cbn iota beta.
  rewrite for_each_app. unfold bind.
  destruct (for_each (range max_steps) _ _) as [[[] | e] self']; [| reflexivity].
  simpl for_each. unfold bind, ret.
  destruct (fit_body R _ X y (Z.to_nat max_steps) self') as [[[] | e] self''];
    reflexivity.
Qed.

(* ------------------------------------------------------------------ *)
(** ** Further properties: failures and effects *)

Lemma score_shape_y (self : Perceptron) (w0 : Np.vector) (X : Np.matrix)
    (y : Np.vector) :
  w self = Some w0 -> length w0 = S (Np.ncols X) -> length y <> Np.nrows X ->
  score X y self = (Raise ValueError, self).
Proof.
  intros Hw Hlen Hy. unfold score, bind.
  rewrite (validation_run self w0) by assumption.
  unfold lift, Np.dot_vv. rewrite activation_signs_length.
  unfold Np.shift_labels. rewrite length_map.
  assert (E : Nat.eqb (Np.nrows X) (length y) = false)
    by (apply Nat.eqb_neq; congruence).
  rewrite E. reflexivity.
Qed.

(** X1.  [score] on a fitted object raises the shape error, and changes nothing,
    when [X] does not have one column fewer than the weights have entries,
    and also when the columns fit but [y] is not as long as [X] has rows. *)
Theorem score_shape_errors (self : Perceptron) (w0 : Np.vector)
    (X : Np.matrix) (y : Np.vector) :
  w self = Some w0 ->
  length w0 <> S (Np.ncols X) \/ length y <> Np.nrows X ->
  score X y self = (Raise ValueError, self).
Proof.
  intros Hw H.
  destruct (Nat.eq_dec (length w0) (S (Np.ncols X))) as [Hlen | Hlen].
  - destruct H as [H | H]; [contradiction |].
    apply (score_shape_y self w0); assumption.
  - apply score_raises. apply (validation_shape self w0); [exact Hw |].
    simpl. congruence.
Qed.

Lemma score_shape_errors_witness :
  w {| w := Some [1 # 2; 1 # 2]; history := Some [] |} = Some [1 # 2; 1 # 2] /\
  (length [1 # 2; 1 # 2] <> S (Np.ncols X_ones)
   \/ length [0; 1] <> Np.nrows X_ones) /\
  score X_ones [0; 1] {| w := Some [1 # 2; 1 # 2]; history := Some [] |}
  = (Raise ValueError, {| w := Some [1 # 2; 1 # 2]; history := Some [] |}).
Proof.
  assert (H : length [1 # 2; 1 # 2] <> S (Np.ncols X_ones)
              \/ length [0; 1] <> Np.nrows X_ones)
    by (right; vm_compute; lia).
  split; [reflexivity |]. split; [exact H |].
  apply (score_shape_errors {| w := Some [1 # 2; 1 # 2]; history := Some [] |}
                            [1 # 2; 1 # 2] X_ones [0; 1]);
    [reflexivity | exact H].
Defined.

(** X2.  [score], [predict] and [validation] never change the object, whether
    they return or raise. *)
Theorem queries_leave_object (self : Perceptron) :
  (forall (X : Np.matrix) (y : Np.vector), snd (score X y self) = self)
  /\ (forall X : Np.matrix, snd (predict X self) = self)
  /\ (forall X : Np.matrix, snd (validation X self) = self)
  /\ (forall x : Np.vector, snd (validation_row x self) = self).
Proof.
  assert (Hval : forall X, snd (validation X self) = self).
  { intro X. unfold validation, bind, get_w, lift, ret.
    destruct (w self) as [w0 |]; [| reflexivity].
    destruct (Np.dot_mv X w0); reflexivity. }
  split; [| split; [| split]].
  - intros X y. unfold score, bind.
    specialize (Hval (Np.append_ones X)).
    destruct (validation (Np.append_ones X) self) as [[s | e] self'];
      simpl in Hval; subst self'; [| reflexivity].
    unfold lift, ret. destruct (Np.dot_vv s (Np.shift_labels y)); reflexivity.
  - intro X. unfold predict, bind, get_w, lift, ret.
    destruct (w self) as [w0 |]; [| reflexivity].
    destruct (Np.dot_mv X w0); reflexivity.
  - exact Hval.
  - intro x. unfold validation_row, bind, get_w, lift, ret.
    destruct (w self) as [w0 |]; [| reflexivity].
    destruct (Np.dot_vv x w0); reflexivity.
Qed.

(** X3.  What the object held before [fit] has no influence on what [fit]
    returns or leaves: a second [fit] starts from nothing of the first. *)
Theorem fit_forgets_object (R : RandomState) (X : Np.matrix) (y : Np.vector)
    (max_steps : Z) (self1 self2 : Perceptron) :
  fit R X y max_steps self1 = fit R X y max_steps self2.
Proof. unfold fit, bind, set_w, set_history. reflexivity. Qed.

(** X4.  [fit] on a matrix without rows, asked for at least one step, raises
    [ValueError] at the first draw of an index, after it has assigned the
    initial weights and emptied the history. *)
Theorem fit_no_rows (R : RandomState) (X : Np.matrix) (y : Np.vector)
    (max_steps : Z) (self : Perceptron) :
  Np.nrows X = 0%nat -> (1 <= max_steps)%Z ->
  fit R X y max_steps self
  = (Raise ValueError,
     {| w := Some (rand R (S (Np.ncols X))); history := Some [] |}).
Proof.
  intros Hn Hm. unfold fit, range.
  destruct (Z.to_nat max_steps) as [| m] eqn:E; [lia |].
  simpl seq. simpl for_each.
  unfold bind at 1 2 3. unfold set_w at 1. unfold set_history at 1.
  cbn iota beta. unfold fit_body. unfold bind at 2. unfold lift at 1.
  unfold randint.
  replace (Np.nrows (Np.append_ones X)) with 0%nat
    by (unfold Np.nrows in *; simpl; rewrite length_map; symmetry; exact Hn).
  reflexivity.
Qed.

Lemma fit_no_rows_witness :
  Np.nrows (Np.Matrix 2 []) = 0%nat /\ (1 <= 3)%Z /\
  fit R_half (Np.Matrix 2 []) [] 3 init
  = (Raise ValueError,
     {| w := Some (rand R_half (S (Np.ncols (Np.Matrix 2 []))));
        history := Some [] |}).
Proof.
  split; [reflexivity |]. split; [lia |].
  apply (fit_no_rows R_half (Np.Matrix 2 []) [] 3%Z init); [reflexivity | lia].
Defined.

Lemma update_w_run_labels (w0 : Np.vector) (h : option (list Num.npfloat))
    (X : Np.matrix) (y : Np.vector) (i : nat) :
  Np.wf X -> (i < Np.nrows X)%nat -> (i < length y)%nat ->
  length w0 = S (Np.ncols X) ->
  update_w (Np.append_ones X) y i {| w := Some w0; history := h |} =
  (Ok tt, {| w := Some (step_w w0 X y i); history := h |}).
Proof.
  intros Hwf Hi Hy Hw. unfold update_w.
  rewrite (get_w_set _ w0) by reflexivity.
  assert (Hxl : length (aug_row X i) = length w0)
    by (rewrite Hw; apply aug_row_length; assumption).
  unfold bind at 1.
  rewrite (getitem_nth _ i 0)
    by (unfold Np.shift_labels; rewrite length_map; exact Hy).
  rewrite shifted_nth by exact Hy.
  unfold lift at 1. unfold bind at 1.
  rewrite (@getitem_nth Np.vector _ i [])
    by (simpl; rewrite length_map; exact Hi).
  rewrite aug_rows_nth by exact Hi.
  unfold lift at 1. unfold bind at 1.
  rewrite (validation_row_run _ w0) by (reflexivity || exact Hxl).
  unfold bind, lift, set_w.
  rewrite add_same_length by (rewrite scale_length; symmetry; exact Hxl).
  reflexivity.
Qed.

Lemma update_w_no_label (w0 : Np.vector) (h : option (list Num.npfloat))
    (X_ : Np.matrix) (y : Np.vector) (i : nat) :
  (length y <= i)%nat ->
  update_w X_ y i {| w := Some w0; history := h |} =
  (Raise IndexError, {| w := Some w0; history := h |}).
Proof.
  intro Hy. unfold update_w. rewrite (get_w_set _ w0) by reflexivity.
  unfold bind, lift, Np.getitem.
  assert (E : nth_error (Np.shift_labels y) i = None)
    by (apply nth_error_None; unfold Np.shift_labels; rewrite length_map;
        exact Hy).
  rewrite E. reflexivity.
Qed.

Lemma for_each_first_raises {A : Type} (k : A) (l : list A)
    (body : A -> M unit) (self self' : Perceptron) (e : exn) :
  body k self = (Raise e, self') ->
  for_each (k :: l) body self = (Raise e, self').
Proof. intro H. simpl. unfold bind. rewrite H. reflexivity. Qed.

(** X5.  [fit] with a label vector that is not as long as [X] has rows, asked
    for at least one step, never gets past the first pass and records no
    score.  When the drawn index is beyond the labels it raises
    [IndexError] with the initial weights in place; otherwise the weights
    take their first update and the score that follows raises
    [ValueError]. *)
Theorem fit_label_length_mismatch (R : RandomState) (X : Np.matrix)
    (y : Np.vector) (max_steps : Z) (self : Perceptron) :
  Np.wf X -> (0 < Np.nrows X)%nat -> length y <> Np.nrows X ->
  (1 <= max_steps)%Z ->
  let w0 := rand R (S (Np.ncols X)) in
  ((length y <= drawn R 0 X)%nat ->
     fit R X y max_steps self
     = (Raise IndexError, {| w := Some w0; history := Some [] |}))
  /\ ((drawn R 0 X < length y)%nat ->
        fit R X y max_steps self
        = (Raise ValueError,
           {| w := Some (step_w w0 X y (drawn R 0 X)); history := Some [] |})).
Proof.
  intros Hwf Hn Hy Hm w0.
  assert (Hw0 : length w0 = S (Np.ncols X)) by apply rand_length.
  assert (Hrange : range max_steps = 0%nat :: seq 1 (Z.to_nat max_steps - 1)).
  { unfold range. destruct (Z.to_nat max_steps) as [| m] eqn:E; [lia |].
    simpl. rewrite Nat.sub_0_r. reflexivity. }
  unfold fit. rewrite Hrange.
  unfold bind at 1 2. unfold set_w at 1. unfold set_history at 1.
  cbn iota beta. simpl Np.ncols. fold w0.
  split; intro Hi; apply for_each_first_raises; unfold fit_body;
    rewrite randint_drawn by exact Hn;
    unfold bind at 1; unfold lift at 1; unfold bind at 1.
  - simpl w. simpl history. rewrite update_w_no_label by exact Hi. reflexivity.
  - simpl w. simpl history.
    rewrite update_w_run_labels
      by (try assumption; apply drawn_lt; exact Hn).
    unfold bind.
    rewrite (score_shape_y _ (step_w w0 X y (drawn R 0 X)));
      [reflexivity | reflexivity | | exact Hy].
    apply step_w_length; try assumption. apply drawn_lt. exact Hn.
Qed.

Lemma fit_label_length_mismatch_witness :
  Np.wf X_ones /\ (0 < Np.nrows X_ones)%nat /\
  length [0; 1] <> Np.nrows X_ones /\ (1 <= 4)%Z /\
  ((length [0; 1] <= drawn R_half 0 X_ones)%nat ->
     fit R_half X_ones [0; 1] 4 init
     = (Raise IndexError,
        {| w := Some (rand R_half (S (Np.ncols X_ones)));
           history := Some [] |}))
  /\ ((drawn R_half 0 X_ones < length [0; 1])%nat ->
        fit R_half X_ones [0; 1] 4 init
        = (Raise ValueError,
           {| w := Some (step_w (rand R_half (S (Np.ncols X_ones))) X_ones
                                [0; 1] (drawn R_half 0 X_ones));
              history := Some [] |})).
Proof.
  assert (Hwf : Np.wf X_ones) by (repeat constructor).
  assert (Hn : (0 < Np.nrows X_ones)%nat) by (vm_compute; lia).
  assert (Hy : length [0; 1] <> Np.nrows X_ones) by (vm_compute; lia).
  split; [exact Hwf |]. split; [exact Hn |]. split; [exact Hy |].
  split; [lia |].
  apply (fit_label_length_mismatch R_half X_ones [0; 1] 4%Z init);
    [exact Hwf | exact Hn | exact Hy | lia].
Defined.

(* ------------------------------------------------------------------ *)
(** ** Further properties: what training records and changes *)

(** X6.  After [fit] with at least one step, the last element of [history] is
    what [score] returns for the training data on the fitted object. *)
Theorem history_ends_with_score (R : RandomState) (X : Np.matrix)
    (y : Np.vector) (max_steps : Z) (self : Perceptron) :
  Np.wf X -> (0 < Np.nrows X)%nat -> length y = Np.nrows X ->
  (1 <= max_steps)%Z ->
  exists (w1 : Np.vector) (h : list Num.npfloat) (v : Num.npfloat),
    fit R X y max_steps self
    = (Ok tt, {| w := Some w1; history := Some (h ++ [v]) |})
    /\ score X y {| w := Some w1; history := Some (h ++ [v]) |}
       = (Ok v, {| w := Some w1; history := Some (h ++ [v]) |}).
Proof.
  intros Hwf Hn Hy Hm.
  replace max_steps with ((max_steps - 1) + 1)%Z by lia.
  rewrite fit_extend by lia.
  destruct (fit_run (fun _ => True) R X y (max_steps - 1) self Hwf Hn Hy
                    (fun _ _ => I)) as (w0 & h & Hrun & Hlen & _ & _).
  unfold bind. rewrite Hrun. rewrite fit_body_run by assumption.
  set (w1 := step_w w0 X y (drawn R (Z.to_nat (max_steps - 1)) X)).
  exists w1, h, (score_formula w1 X y). split; [reflexivity |].
  apply (score_run _ w1); [reflexivity | | exact Hy].
  apply step_w_length; try assumption. apply drawn_lt. exact Hn.
Qed.

Lemma history_ends_with_score_witness :
  Np.wf X_ones /\ (0 < Np.nrows X_ones)%nat /\
  length y_001 = Np.nrows X_ones /\ (1 <= 4)%Z /\
  exists (w1 : Np.vector) (h : list Num.npfloat) (v : Num.npfloat),
    fit R_half X_ones y_001 4 init
    = (Ok tt, {| w := Some w1; history := Some (h ++ [v]) |})
    /\ score X_ones y_001 {| w := Some w1; history := Some (h ++ [v]) |}
       = (Ok v, {| w := Some w1; history := Some (h ++ [v]) |}).
Proof.
  assert (Hwf : Np.wf X_ones) by (repeat constructor).
  assert (Hn : (0 < Np.nrows X_ones)%nat) by (vm_compute; lia).
  split; [exact Hwf |]. split; [exact Hn |]. split; [reflexivity |].
  split; [lia |].
  apply (history_ends_with_score R_half X_ones y_001 4%Z init);
    [exact Hwf | exact Hn | reflexivity | lia].
Defined.

(* ------------------------------------------------------------------ *)
(** ** Further properties: the score and classification *)

Lemma Qeq_bool_one_zero (v : Q) :
  (v == 1 -> Qeq_bool v 1 = true) /\ (v == 0 -> Qeq_bool v 1 = false).
Proof.
  split; intro H.
  - apply Qeq_bool_iff. exact H.
  - destruct (Qeq_bool v 1) eqn:E; [| reflexivity].
    apply Qeq_bool_iff in E. rewrite H in E. discriminate E.
Qed.

(** One row's term of the dot product in [score]: +1 when the row is
    classified right, -1 when wrong, 0 at activation zero. *)
Lemma score_term (w0 r : Np.vector) (yi : Q) :
  yi == 0 \/ yi == 1 ->
  Num.sign (activation w0 r) * (2 * yi - 1)
  == flag (classified_right w0 r yi) - flag (classified_wrong w0 r yi).
Proof.
  intro Hb. unfold classified_right, classified_wrong.
  destruct (Qeq_bool_one_zero yi) as [H1 H0].
  destruct Hb as [Hb | Hb]; [rewrite (H0 Hb) | rewrite (H1 Hb)]; rewrite Hb;
    destruct (sign_cases (activation w0 r)) as [[H ->] | [[H ->] | [H ->]]].
  - assert (E1 : Num.ltb (activation w0 r) 0 = true) by (apply ltb_lt; exact H).
    assert (E2 : Num.ltb 0 (activation w0 r) = false) by (apply ltb_nlt; lra).
    rewrite E1, E2. reflexivity.
  - assert (E1 : Num.ltb (activation w0 r) 0 = false) by (apply ltb_nlt; lra).
    assert (E2 : Num.ltb 0 (activation w0 r) = false) by (apply ltb_nlt; lra).
    rewrite E1, E2. reflexivity.
  - assert (E1 : Num.ltb (activation w0 r) 0 = false) by (apply ltb_nlt; lra).
    assert (E2 : Num.ltb 0 (activation w0 r) = true) by (apply ltb_lt; exact H).
    rewrite E1, E2. reflexivity.
  - assert (E1 : Num.ltb (activation w0 r) 0 = true) by (apply ltb_lt; exact H).
    assert (E2 : Num.ltb 0 (activation w0 r) = false) by (apply ltb_nlt; lra).
    rewrite E1, E2. reflexivity.
  - assert (E1 : Num.ltb (activation w0 r) 0 = false) by (apply ltb_nlt; lra).
    assert (E2 : Num.ltb 0 (activation w0 r) = false) by (apply ltb_nlt; lra).
    rewrite E1, E2. reflexivity.
  - assert (E1 : Num.ltb (activation w0 r) 0 = false) by (apply ltb_nlt; lra).
    assert (E2 : Num.ltb 0 (activation w0 r) = true) by (apply ltb_lt; exact H).
    rewrite E1, E2. reflexivity.
Qed.

Lemma count_flag (b : bool) (n : nat) :
  inject_Z (Z.of_nat ((if b then 1 else 0) + n))
  == flag b + inject_Z (Z.of_nat n).
Proof.
  destruct b; unfold flag.
  - change (1 + n)%nat with (S n). rewrite count_succ. ring.
  - simpl. ring.
Qed.

Lemma right_wrong_exclusive (w0 r : Np.vector) (yi : Q) :
  classified_right w0 r yi = true -> classified_wrong w0 r yi = false.
Proof.
  unfold classified_right, classified_wrong.
  destruct (Qeq_bool yi 1); intro H; apply ltb_lt in H; apply ltb_nlt; lra.
Qed.

Section Tally.

Variable w0 : Np.vector.

Lemma agreement_sum (rs : list Np.vector) :
  forall y : Np.vector,
    binary_labels y ->
    Np.inner (map (fun r => Num.sign (Np.inner (r ++ [1]) w0)) rs)
             (Np.shift_labels y)
    == inject_Z (Z.of_nat (count_rows (classified_right w0) rs y))
       - inject_Z (Z.of_nat (count_rows (classified_wrong w0) rs y)).
Proof.
  induction rs as [| r rs IH]; intros [| yi y] Hb; simpl;
    try reflexivity.
  inversion Hb as [| ? ? Hyi Hb']. subst.
  change (Np.inner (map (fun r0 => Num.sign (Np.inner (r0 ++ [1]) w0)) rs)
                   (map (fun v => 2 * v - 1) y))
    with (Np.inner (map (fun r0 => Num.sign (Np.inner (r0 ++ [1]) w0)) rs)
                   (Np.shift_labels y)).
  rewrite (IH y Hb').
  rewrite !count_flag.
  pose proof (score_term w0 r yi Hyi) as Ht. unfold activation in Ht.
  rewrite Ht. unfold activation. ring.
Qed.

Lemma right_wrong_le (rs : list Np.vector) :
  forall y : Np.vector,
    (count_rows (classified_right w0) rs y
     + count_rows (classified_wrong w0) rs y <= length rs)%nat.
Proof.
  induction rs as [| r rs IH]; intros [| yi y]; simpl; try lia.
  specialize (IH y).
  destruct (classified_right w0 r yi) eqn:E.
  - rewrite (right_wrong_exclusive _ _ _ E). lia.
  - destruct (classified_wrong w0 r yi); lia.
Qed.

End Tally.

Lemma score_formula_counts (w0 : Np.vector) (X : Np.matrix) (y : Np.vector) :
  (0 < Np.nrows X)%nat -> binary_labels y ->
  exists q,
    score_formula w0 X y = Num.Finite q
    /\ q == (inject_Z (Z.of_nat (count_rows (classified_right w0) (Np.rows X) y))
             - inject_Z (Z.of_nat (count_rows (classified_wrong w0) (Np.rows X) y)))
            / inject_Z (Z.of_nat (Np.nrows X)).
Proof.
  intros Hn Hb. unfold score_formula, Num.true_divide.
  destruct (Np.nrows X) as [| n] eqn:E; [lia |].
  eexists. split; [reflexivity |].
  unfold activation_signs. rewrite (agreement_sum w0 (Np.rows X) y Hb).
  reflexivity.
Qed.

(** X8.  With labels 0 or 1, [score] on a fitted object is the number of rows
    classified right minus the number classified wrong, divided by the
    number of rows; rows of activation zero count on neither side. *)
Theorem score_counts (self : Perceptron) (w0 : Np.vector) (X : Np.matrix)
    (y : Np.vector) :
  w self = Some w0 -> length w0 = S (Np.ncols X) -> length y = Np.nrows X ->
  (0 < Np.nrows X)%nat -> binary_labels y ->
  exists q,
    score X y self = (Ok (Num.Finite q), self)
    /\ q == (inject_Z (Z.of_nat (count_rows (classified_right w0) (Np.rows X) y))
             - inject_Z (Z.of_nat (count_rows (classified_wrong w0) (Np.rows X) y)))
            / inject_Z (Z.of_nat (Np.nrows X)).
Proof.
  intros Hw Hlen Hy Hn Hb.
  destruct (score_formula_counts w0 X y Hn Hb) as (q & Hq & Heq).
  exists q. split; [| exact Heq].
  rewrite (score_run self w0) by assumption. rewrite Hq. reflexivity.
Qed.

Lemma score_counts_witness :
  w {| w := Some [1 # 2; 1 # 2]; history := Some [] |} = Some [1 # 2; 1 # 2] /\
  length [1 # 2; 1 # 2] = S (Np.ncols X_ones) /\
  length y_001 = Np.nrows X_ones /\ (0 < Np.nrows X_ones)%nat /\
  binary_labels y_001 /\
  exists q,
    score X_ones y_001 {| w := Some [1 # 2; 1 # 2]; history := Some [] |}
    = (Ok (Num.Finite q), {| w := Some [1 # 2; 1 # 2]; history := Some [] |})
    /\ q == (inject_Z (Z.of_nat (count_rows (classified_right [1 # 2; 1 # 2])
                                            (Np.rows X_ones) y_001))
             - inject_Z (Z.of_nat (count_rows (classified_wrong [1 # 2; 1 # 2])
                                              (Np.rows X_ones) y_001)))
            / inject_Z (Z.of_nat (Np.nrows X_ones)).
Proof.
  assert (Hn : (0 < Np.nrows X_ones)%nat) by (vm_compute; lia).
  split; [reflexivity |]. split; [reflexivity |]. split; [reflexivity |].
  split; [exact Hn |]. split; [exact binary_y_001 |].
  apply (score_counts {| w := Some [1 # 2; 1 # 2]; history := Some [] |}
                      [1 # 2; 1 # 2] X_ones y_001);
    [reflexivity | reflexivity | reflexivity | exact Hn | exact binary_y_001].
Defined.

Lemma count_nonneg (n : nat) : 0 <= inject_Z (Z.of_nat n).
Proof. change 0 with (inject_Z 0). rewrite <- Zle_Qle. lia. Qed.

Lemma count_le (a b : nat) :
  (a <= b)%nat -> inject_Z (Z.of_nat a) <= inject_Z (Z.of_nat b).
Proof. intro H. rewrite <- Zle_Qle. lia. Qed.

Lemma count_eq (a b : nat) :
  inject_Z (Z.of_nat a) == inject_Z (Z.of_nat b) -> a = b.
Proof. intro H. unfold Qeq in H. simpl in H. lia. Qed.

Lemma ratio_one (c m n q : Q) :
  0 < n -> 0 <= m -> c + m <= n -> q == (c - m) / n ->
  (q == 1 <-> c == n).
Proof.
  intros Hn Hm Hle Hq.
  assert (Hmul : q * n == c - m) by (rewrite Hq; field; lra).
  split; intro H.
  - rewrite H in Hmul. lra.
  - assert (Hm0 : m == 0) by lra.
    rewrite Hq, H, Hm0. field. lra.
Qed.

(** X9.  With labels 0 or 1, [score] on a fitted object returns 1 exactly when
    every row is classified right: positive activation under label 1,
    negative under label 0. *)
Theorem score_one_iff_all_right (self : Perceptron) (w0 : Np.vector)
    (X : Np.matrix) (y : Np.vector) :
  w self = Some w0 -> length w0 = S (Np.ncols X) -> length y = Np.nrows X ->
  (0 < Np.nrows X)%nat -> binary_labels y ->
  exists q,
    score X y self = (Ok (Num.Finite q), self)
    /\ (q == 1 <->
        count_rows (classified_right w0) (Np.rows X) y = Np.nrows X).
Proof.
  intros Hw Hlen Hy Hn Hb.
  destruct (score_counts self w0 X y Hw Hlen Hy Hn Hb) as (q & Hrun & Hq).
  exists q. split; [exact Hrun |].
  pose proof (right_wrong_le w0 (Np.rows X) y) as Hle.
  fold (Np.nrows X) in Hle. apply count_le in Hle.
  rewrite Nat2Z.inj_add, inject_Z_plus in Hle.
  assert (Hpos : 0 < inject_Z (Z.of_nat (Np.nrows X))).
  { change 0 with (inject_Z 0). rewrite <- Zlt_Qlt. lia. }
  rewrite (ratio_one _ _ _ q Hpos (count_nonneg _) Hle Hq).
  split; intro H; [apply count_eq; exact H | rewrite H; reflexivity].
Qed.

Lemma score_one_iff_all_right_witness :
  w {| w := Some [1 # 2; 1 # 2]; history := Some [] |} = Some [1 # 2; 1 # 2] /\
  length [1 # 2; 1 # 2] = S (Np.ncols X_ones) /\
  length y_001 = Np.nrows X_ones /\ (0 < Np.nrows X_ones)%nat /\
  binary_labels y_001 /\
  exists q,
    score X_ones y_001 {| w := Some [1 # 2; 1 # 2]; history := Some [] |}
    = (Ok (Num.Finite q), {| w := Some [1 # 2; 1 # 2]; history := Some [] |})
    /\ (q == 1 <->
        count_rows (classified_right [1 # 2; 1 # 2]) (Np.rows X_ones) y_001
        = Np.nrows X_ones).
Proof.
  assert (Hn : (0 < Np.nrows X_ones)%nat) by (vm_compute; lia).
  split; [reflexivity |]. split; [reflexivity |]. split; [reflexivity |].
  split; [exact Hn |]. split; [exact binary_y_001 |].
  apply (score_one_iff_all_right
           {| w := Some [1 # 2; 1 # 2]; history := Some [] |}
           [1 # 2; 1 # 2] X_ones y_001);
    [reflexivity | reflexivity | reflexivity | exact Hn | exact binary_y_001].
Defined.

(* ------------------------------------------------------------------ *)
(** ** Further properties: weights that need no update *)

Lemma sign_compat (u v : Q) : u == v -> Num.sign u = Num.sign v.
Proof. intro H. unfold Num.sign. rewrite H. reflexivity. Qed.

Lemma inner_compat (x : Np.vector) :
  forall a b : Np.vector, Np.vec_eq a b -> Np.inner x a == Np.inner x b.
Proof.
  induction x as [| u x IH]; intros a b H; [reflexivity |].
  destruct H as [| p q a b Hpq H]; simpl; [reflexivity |].
  rewrite Hpq, (IH a b H). reflexivity.
Qed.

Lemma vec_eq_trans (a b c : Np.vector) :
  Np.vec_eq a b -> Np.vec_eq b c -> Np.vec_eq a c.
Proof.
  intro H. revert c. induction H as [| p q a b Hpq _ IH]; intros c Hc;
    inversion Hc as [| ? r ? c' Hqr Hc']; subst; constructor.
  - rewrite Hpq. exact Hqr.
  - apply IH. exact Hc'.
Qed.

Lemma activation_signs_compat (a b : Np.vector) (X : Np.matrix) :
  Np.vec_eq a b -> activation_signs a X = activation_signs b X.
Proof.
  intro H. unfold activation_signs. apply map_ext. intro r.
  apply sign_compat. apply inner_compat. exact H.
Qed.

Lemma score_formula_compat (a b : Np.vector) (X : Np.matrix) (y : Np.vector) :
  Np.vec_eq a b -> score_formula a X y = score_formula b X y.
Proof.
  intro H. unfold score_formula. rewrite (activation_signs_compat a b X H).
  reflexivity.
Qed.

Section Settled.

Variable R : RandomState.
Variable X : Np.matrix.
Variable y : Np.vector.
Variable w0 : Np.vector.
Hypothesis X_wf : Np.wf X.
Hypothesis X_rows : (0 < Np.nrows X)%nat.
Hypothesis y_length : length y = Np.nrows X.
Hypothesis w0_settled : settled w0 X y.

Lemma settled_step (wk : Np.vector) (i : nat) :
  (i < Np.nrows X)%nat -> length wk = S (Np.ncols X) -> Np.vec_eq wk w0 ->
  Np.vec_eq (step_w wk X y i) w0.
Proof.
  intros Hi Hlen Heq.
  destruct (step_w_rule wk X y i X_wf Hi Hlen) as [_ Hkeep].
  apply (vec_eq_trans _ wk); [| exact Heq]. apply Hkeep.
  rewrite (sign_compat _ (Np.inner (aug_row X i) w0))
    by (apply inner_compat; exact Heq).
  apply w0_settled. exact Hi.
Qed.

Lemma settled_loop (ks : list nat) :
  forall (wk : Np.vector) (h : list Num.npfloat),
    length wk = S (Np.ncols X) -> Np.vec_eq wk w0 ->
    exists w1 : Np.vector,
      for_each ks (fit_body R (Np.append_ones X) X y)
               {| w := Some wk; history := Some h |}
      = (Ok tt,
         {| w := Some w1;
            history := Some (h ++ repeat (score_formula w0 X y) (length ks)) |})
      /\ Np.vec_eq w1 w0.
Proof.
  induction ks as [| k ks IH]; intros wk h Hlen Heq.
  - exists wk. simpl. rewrite app_nil_r. split; [reflexivity | exact Heq].
  - simpl for_each. unfold bind. rewrite fit_body_run by assumption.
    pose proof (drawn_lt R k X X_rows) as Hi.
    pose proof (settled_step wk _ Hi Hlen Heq) as Heq1.
    rewrite (score_formula_compat _ w0 X y Heq1).
    destruct (IH (step_w wk X y (drawn R k X))
                 (h ++ [score_formula w0 X y])
                 (step_w_length _ _ _ _ X_wf Hi Hlen) Heq1)
      as (w1 & Hrun & Hw1).
    exists w1. rewrite Hrun, <- app_assoc. split; [reflexivity | exact Hw1].
Qed.

End Settled.

Lemma vec_eq_same (a : Np.vector) : Np.vec_eq a a.
Proof. induction a; constructor; [reflexivity | assumption]. Qed.

(** X10.  When the initial weights misclassify no row (the test of line 42 fails
    at every index), [fit] never changes the weights, for any number of
    steps and any draws, and every score it records is the score of the
    initial weights. *)
Theorem fit_settled_is_fixed (R : RandomState) (X : Np.matrix) (y : Np.vector)
    (max_steps : Z) (self : Perceptron) :
  Np.wf X -> (0 < Np.nrows X)%nat -> length y = Np.nrows X ->
  settled (rand R (S (Np.ncols X))) X y ->
  exists (w1 : Np.vector) (v : Num.npfloat),
    fit R X y max_steps self
    = (Ok tt, {| w := Some w1;
                 history := Some (repeat v (Z.to_nat max_steps)) |})
    /\ Np.vec_eq w1 (rand R (S (Np.ncols X)))
    /\ score X y {| w := Some (rand R (S (Np.ncols X))); history := Some [] |}
       = (Ok v, {| w := Some (rand R (S (Np.ncols X))); history := Some [] |}).
Proof.
  intros Hwf Hn Hy Hs. set (w0 := rand R (S (Np.ncols X))) in *.
  assert (Hw0 : length w0 = S (Np.ncols X)) by apply rand_length.
  destruct (settled_loop R X y w0 Hwf Hn Hy Hs (range max_steps) w0 []
                         Hw0 (vec_eq_same w0)) as (w1 & Hrun & Heq).
  exists w1, (score_formula w0 X y).
  split; [| split; [exact Heq | apply (score_run _ w0); auto]].
  unfold fit, bind, set_w, set_history. cbn iota beta. simpl Np.ncols.
  fold w0. simpl w. simpl history. rewrite Hrun.
  unfold range. rewrite length_seq. reflexivity.
Qed.

Lemma settled_ones : settled (rand R_half (S (Np.ncols X_ones))) X_ones [1; 1; 1].
Proof.
  intros i Hi H.
  destruct i as [| [| [| i]]]; try (vm_compute in H; discriminate H).
  vm_compute in Hi. lia.
Qed.

Lemma fit_settled_is_fixed_witness :
  Np.wf X_ones /\ (0 < Np.nrows X_ones)%nat /\
  length [1; 1; 1] = Np.nrows X_ones /\
  settled (rand R_half (S (Np.ncols X_ones))) X_ones [1; 1; 1] /\
  exists (w1 : Np.vector) (v : Num.npfloat),
    fit R_half X_ones [1; 1; 1] 4 init
    = (Ok tt, {| w := Some w1; history := Some (repeat v (Z.to_nat 4)) |})
    /\ Np.vec_eq w1 (rand R_half (S (Np.ncols X_ones)))
    /\ score X_ones [1; 1; 1]
             {| w := Some (rand R_half (S (Np.ncols X_ones)));
                history := Some [] |}
       = (Ok v, {| w := Some (rand R_half (S (Np.ncols X_ones)));
                   history := Some [] |}).
Proof.
  assert (Hwf : Np.wf X_ones) by (repeat constructor).
  assert (Hn : (0 < Np.nrows X_ones)%nat) by (vm_compute; lia).
  split; [exact Hwf |]. split; [exact Hn |]. split; [reflexivity |].
  split; [exact settled_ones |].
  apply (fit_settled_is_fixed R_half X_ones [1; 1; 1] 4%Z init);
    [exact Hwf | exact Hn | reflexivity | exact settled_ones].
Defined.

(* ------------------------------------------------------------------ *)
(** ** The score against its formula *)

Lemma sum_to_ext (n : nat) (f g : nat -> Q) :
  (forall i, (i < n)%nat -> f i == g i) -> sum_to n f == sum_to n g.
Proof.
  induction n as [| n IH]; intro H; simpl; [reflexivity |].
  rewrite IH by (intros i Hi; apply H; lia).
  rewrite (H n) by lia. reflexivity.
Qed.

Lemma sum_to_shift (n : nat) (f : nat -> Q) :
  sum_to (S n) f == f 0%nat + sum_to n (fun j => f (S j)).
Proof.
  induction n as [| n IH].
  - simpl. ring.
  - change (sum_to (S (S n)) f) with (sum_to (S n) f + f (S n)).
    rewrite IH. simpl. ring.
Qed.

Lemma inner_sum (a : Np.vector) :
  forall b : Np.vector,
    length a = length b ->
    Np.inner a b == sum_to (length a) (fun j => nth j a 0 * nth j b 0).
Proof.
  induction a as [| x a IH]; intros [| z b] H; simpl in H;
    try discriminate H; [reflexivity |].
  injection H as H.
  change (length (x :: a)) with (S (length a)).
  rewrite sum_to_shift. simpl nth. simpl Np.inner.
  rewrite (IH b H). reflexivity.
Qed.

Lemma sign_three_sign (v : Q) : sign_three v = Num.sign v.
Proof.
  unfold sign_three.
  destruct (sign_cases v) as [[H ->] | [[H ->] | [H ->]]].
  - assert (E : Qle_bool 0 v = false).
    { destruct (Qle_bool 0 v) eqn:E; [| reflexivity].
      apply Qle_bool_iff in E. lra. }
    rewrite E. reflexivity.
  - assert (E1 : Qle_bool 0 v = true) by (apply Qle_bool_iff; lra).
    assert (E2 : Qle_bool v 0 = true) by (apply Qle_bool_iff; lra).
    rewrite E1, E2. reflexivity.
  - assert (E1 : Qle_bool 0 v = true) by (apply Qle_bool_iff; lra).
    assert (E2 : Qle_bool v 0 = false).
    { destruct (Qle_bool v 0) eqn:E; [| reflexivity].
      apply Qle_bool_iff in E. lra. }
    rewrite E1, E2. reflexivity.
Qed.

Lemma aug_row_entry (X : Np.matrix) (i j : nat) :
  Np.wf X -> (i < Np.nrows X)%nat -> (j < S (Np.ncols X))%nat ->
  nth j (aug_row X i) 0 = aug_entry X i j.
Proof.
  intros Hwf Hi Hj. unfold aug_row, aug_entry.
  assert (Hr : length (nth i (Np.rows X) []) = Np.ncols X).
  { unfold Np.wf in Hwf. rewrite Forall_forall in Hwf.
    apply Hwf. apply nth_In. exact Hi. }
  destruct (Nat.ltb_spec j (Np.ncols X)) as [Hlt | Hge].
  - apply app_nth1. rewrite Hr. exact Hlt.
  - rewrite app_nth2 by (rewrite Hr; exact Hge).
    rewrite Hr. replace (j - Np.ncols X)%nat with 0%nat by lia. reflexivity.
Qed.

Lemma aug_row_activation (w0 : Np.vector) (X : Np.matrix) (i : nat) :
  Np.wf X -> (i < Np.nrows X)%nat -> length w0 = S (Np.ncols X) ->
  Np.inner (aug_row X i) w0
  == sum_to (S (Np.ncols X)) (fun j => aug_entry X i j * nth j w0 0).
Proof.
  intros Hwf Hi Hw.
  pose proof (aug_row_length X i Hwf Hi) as Hl.
  rewrite inner_sum by congruence. rewrite Hl.
  apply sum_to_ext. intros j Hj.
  rewrite aug_row_entry by assumption. reflexivity.
Qed.

Lemma activation_signs_nth (w0 : Np.vector) (X : Np.matrix) (i : nat) :
  (i < Np.nrows X)%nat ->
  nth i (activation_signs w0 X) 0 = Num.sign (Np.inner (aug_row X i) w0).
Proof.
  intro Hi. unfold activation_signs, aug_row.
  rewrite (nth_indep _ 0 (Num.sign (Np.inner ([] ++ [1]) w0)))
    by (rewrite length_map; exact Hi).
  apply (map_nth (fun r => Num.sign (Np.inner (r ++ [1]) w0))).
Qed.

Lemma agreement_sum_formula (w0 : Np.vector) (X : Np.matrix) (y : Np.vector) :
  Np.wf X -> length w0 = S (Np.ncols X) -> length y = Np.nrows X ->
  Np.inner (activation_signs w0 X) (Np.shift_labels y)
  == sum_to (Np.nrows X)
            (fun i =>
               sign_three (sum_to (S (Np.ncols X))
                                  (fun j => aug_entry X i j * nth j w0 0))
               * (2 * nth i y 0 - 1)).
Proof.
  intros Hwf Hw Hy.
  rewrite inner_sum
    by (rewrite activation_signs_length; unfold Np.shift_labels;
        rewrite length_map; congruence).
  rewrite activation_signs_length.
  apply sum_to_ext. intros i Hi.
  rewrite activation_signs_nth by exact Hi.
  rewrite shifted_nth by (rewrite Hy; exact Hi).
  rewrite sign_three_sign.
  rewrite (sign_compat _ _ (aug_row_activation w0 X i Hwf Hi Hw)).
  reflexivity.
Qed.

(** C5, as amended.  On a fitted object with weights [w0], for a
    well-shaped [X] with one column fewer than [w0] has entries and [y] as
    long as [X] has rows, [score] leaves the object as it was and, when [X]
    has [n >= 1] rows, returns the number
    [(sum over rows i of sign (sum over columns j of X~[i,j] * w0[j]) *
    (2*y[i] - 1)) / n], where [X~] is [X] with a column of ones appended and
    [sign] is -1 below zero, 0 at zero and +1 above; with no rows the
    division is 0/0 and it returns nan. *)
Theorem score_literal_formula (self : Perceptron) (w0 : Np.vector)
    (X : Np.matrix) (y : Np.vector) :
  w self = Some w0 -> Np.wf X -> length w0 = S (Np.ncols X) ->
  length y = Np.nrows X ->
  ((0 < Np.nrows X)%nat ->
     exists q : Q,
       score X y self = (Ok (Num.Finite q), self)
       /\ q == agreement_formula sign_three w0 X y)
  /\ (Np.nrows X = 0%nat -> score X y self = (Ok Num.NaN, self)).
Proof.
  intros Hw Hwf Hlen Hy.
  rewrite (score_run self w0) by assumption.
  unfold score_formula, Num.true_divide. split; intro Hn.
  - destruct (Np.nrows X) as [| n] eqn:E; [lia |].
    eexists. split; [reflexivity |].
    unfold agreement_formula. rewrite E.
    rewrite (agreement_sum_formula w0 X y Hwf Hlen) by congruence.
    rewrite E. reflexivity.
  - rewrite Hn. unfold activation_signs.
    unfold Np.nrows in Hn. apply length_zero_iff_nil in Hn. rewrite Hn.
    reflexivity.
Qed.

Lemma score_literal_formula_witness :
  w {| w := Some [1 # 2; 1 # 2]; history := Some [] |} = Some [1 # 2; 1 # 2] /\
  Np.wf X_ones /\
  length [1 # 2; 1 # 2] = S (Np.ncols X_ones) /\
  length y_001 = Np.nrows X_ones /\
  (0 < Np.nrows X_ones)%nat /\
  exists q : Q,
    score X_ones y_001 {| w := Some [1 # 2; 1 # 2]; history := Some [] |}
    = (Ok (Num.Finite q), {| w := Some [1 # 2; 1 # 2]; history := Some [] |})
    /\ q == agreement_formula sign_three [1 # 2; 1 # 2] X_ones y_001.
Proof.
  assert (Hwf : Np.wf X_ones) by (repeat constructor).
  assert (Hn : (0 < Np.nrows X_ones)%nat) by (vm_compute; lia).
  split; [reflexivity |]. split; [exact Hwf |]. split; [reflexivity |].
  split; [reflexivity |]. split; [exact Hn |].
  destruct (score_literal_formula
              {| w := Some [1 # 2; 1 # 2]; history := Some [] |}
              [1 # 2; 1 # 2] X_ones y_001 eq_refl Hwf eq_refl eq_refl)
    as [Hpos _].
  exact (Hpos Hn).
Defined.

(** C5, as stated, fails.  With the sign of the glossary (+1 at 0), the
    formula on [X = [[-1]]], [y = [1]] and weights [[1/2, 1/2]] is
    [(+1 * 1) / 1 = 1]: the one activation is [-1/2 + 1/2 = 0].  [score]
    gives that activation the sign 0 and returns 0. *)
Lemma score_glossary_sign_counterexample :
  agreement_formula sign_glossary [1 # 2; 1 # 2] (Np.Matrix 1 [[-1]]) [1] == 1
  /\ exists q : Q,
       score (Np.Matrix 1 [[-1]]) [1]
             {| w := Some [1 # 2; 1 # 2]; history := Some [] |}
       = (Ok (Num.Finite q), {| w := Some [1 # 2; 1 # 2]; history := Some [] |})
       /\ q == 0
       /\ ~ q == agreement_formula sign_glossary [1 # 2; 1 # 2]
                                   (Np.Matrix 1 [[-1]]) [1].
Proof.
  split; [vm_compute; reflexivity |].
  eexists. split; [vm_compute; reflexivity |].
  split; [vm_compute; reflexivity |].
  intro H. vm_compute in H. discriminate H.
Qed.

(* ------------------------------------------------------------------ *)
(** ** The passes of [fit], one by one *)

Lemma last_cons {A : Type} (l : list A) :
  forall x d : A, last (x :: l) d = last l x.
Proof.
  induction l as [| z l IH]; intros x d; [reflexivity |].
  change (last (x :: z :: l) d) with (last (z :: l) d).
  rewrite (IH z d), (IH z x). reflexivity.
Qed.

Section Trace.

Variable R : RandomState.
Variable X : Np.matrix.
Variable y : Np.vector.
Hypothesis X_wf : Np.wf X.
Hypothesis X_rows : (0 < Np.nrows X)%nat.
Hypothesis y_length : length y = Np.nrows X.

(** The passes numbered [a], [a+1], ..., [a+m-1], started on weights [w0]:
    [ws] lists the weights each pass leaves and [hs] the score each pass
    appends. *)
Lemma fit_loop_trace (m : nat) :
  forall (a : nat) (w0 : Np.vector) (h : list Num.npfloat),
    length w0 = S (Np.ncols X) ->
    exists (ws : list Np.vector) (hs : list Num.npfloat),
      for_each (seq a m) (fit_body R (Np.append_ones X) X y)
               {| w := Some w0; history := Some h |}
      = (Ok tt, {| w := Some (last ws w0); history := Some (h ++ hs) |})
      /\ length ws = m
      /\ length hs = m
      /\ forall j : nat,
           (j < m)%nat ->
           length (nth j (w0 :: ws) []) = S (Np.ncols X)
           /\ nth j ws [] = step_w (nth j (w0 :: ws) []) X y (drawn R (a + j) X)
           /\ nth j hs Num.NaN = score_formula (nth j ws []) X y.
Proof.
  induction m as [| m IH]; intros a w0 h Hw.
  - exists [], []. simpl. rewrite app_nil_r.
    repeat split; try reflexivity; lia.
  - simpl seq. simpl for_each. unfold bind.
    rewrite fit_body_run by assumption.
    set (w1 := step_w w0 X y (drawn R a X)).
    assert (Hw1 : length w1 = S (Np.ncols X))
      by (apply step_w_length; try assumption; apply drawn_lt; exact X_rows).
    destruct (IH (S a) w1 (h ++ [score_formula w1 X y]) Hw1)
      as (ws & hs & Hrun & Hlw & Hlh & Hnth).
    exists (w1 :: ws), (score_formula w1 X y :: hs).
    rewrite Hrun, <- app_assoc, last_cons. simpl app.
    split; [reflexivity |].
    split; [simpl; f_equal; exact Hlw |].
    split; [simpl; f_equal; exact Hlh |].
    intros [| j] Hj.
    + simpl nth. rewrite Nat.add_0_r. repeat split. exact Hw.
    + destruct (Hnth j ltac:(lia)) as (H1 & H2 & H3).
      rewrite Nat.add_succ_r.
      change (nth (S j) (w0 :: w1 :: ws) []) with (nth j (w1 :: ws) []).
      change (nth (S j) (w1 :: ws) []) with (nth j ws []).
      change (nth (S j) (score_formula w1 X y :: hs) Num.NaN)
        with (nth j hs Num.NaN).
      repeat split; assumption.
Qed.

End Trace.

(** C7.  For well-shaped [X] with at least one row, [y] as long as [X] has
    rows and [max_steps >= 0], [fit] returns after exactly [max_steps]
    passes: there are [max_steps] successive weight vectors [ws] and
    [max_steps] history entries [h] such that pass [k], for every
    [k < max_steps], is the update of line 42 at the index of the [k]-th
    draw, from the weights the pass before left (the initial draw for
    [k = 0]) to [ws[k]], followed by appending [h[k]], the value [score]
    returns for the training data under [ws[k]]; the object ends with the
    last weights and with [h].  With [max_steps = 0] the history is empty
    and the weights are the initial draw; and [fit] with one more step is
    [fit] followed by one more pass of the loop body, so no pass is skipped
    and none ends the loop early. *)
Theorem fit_runs_max_steps (R : RandomState) (X : Np.matrix) (y : Np.vector)
    (max_steps : Z) (self : Perceptron) :
  Np.wf X -> (0 < Np.nrows X)%nat -> length y = Np.nrows X ->
  (0 <= max_steps)%Z ->
  (exists (ws : list Np.vector) (h : list Num.npfloat),
      fit R X y max_steps self
      = (Ok tt, {| w := Some (last ws (rand R (S (Np.ncols X))));
                   history := Some h |})
      /\ Z.of_nat (length ws) = max_steps
      /\ Z.of_nat (length h) = max_steps
      /\ (forall k : nat,
            (k < length ws)%nat ->
            update_w (Np.append_ones X) y (drawn R k X)
                     {| w := Some (nth k (rand R (S (Np.ncols X)) :: ws) []);
                        history := Some (firstn k h) |}
            = (Ok tt, {| w := Some (nth k ws []);
                         history := Some (firstn k h) |})
            /\ score X y {| w := Some (nth k ws []);
                            history := Some (firstn k h) |}
               = (Ok (nth k h Num.NaN),
                  {| w := Some (nth k ws []); history := Some (firstn k h) |}))
      /\ (max_steps = 0%Z ->
          h = [] /\ last ws (rand R (S (Np.ncols X))) = rand R (S (Np.ncols X))))
  /\ fit R X y (max_steps + 1) self
     = bind (fit R X y max_steps)
            (fun _ => fit_body R (Np.append_ones X) X y (Z.to_nat max_steps))
            self.
Proof.
  intros Hwf Hn Hy Hm. split; [| apply fit_extend; exact Hm].
  set (w0 := rand R (S (Np.ncols X))).
  assert (Hw0 : length w0 = S (Np.ncols X)) by apply rand_length.
  destruct (fit_loop_trace R X y Hwf Hn Hy (Z.to_nat max_steps) 0%nat w0 [] Hw0)
    as (ws & hs & Hrun & Hlw & Hlh & Hnth).
  exists ws, hs.
  split.
  { unfold fit, bind, set_w, set_history. cbn iota beta. simpl Np.ncols.
    fold w0. simpl w. simpl history. unfold range. rewrite Hrun. reflexivity. }
  split; [rewrite Hlw; apply Z2Nat.id; exact Hm |].
  split; [rewrite Hlh; apply Z2Nat.id; exact Hm |].
  split.
  - intros k Hk. rewrite Hlw in Hk.
    destruct (Hnth k Hk) as (H1 & H2 & H3). simpl Nat.add in H2.
    pose proof (drawn_lt R k X Hn) as Hi.
    split.
    + rewrite update_w_run by assumption. rewrite <- H2. reflexivity.
    + rewrite H3. apply (score_run _ (nth k ws [])); [reflexivity | | exact Hy].
      rewrite H2. apply step_w_length; assumption.
  - intros ->. simpl in Hlw, Hlh.
    apply length_zero_iff_nil in Hlw. apply length_zero_iff_nil in Hlh.
    subst ws hs. split; reflexivity.
Qed.

Lemma fit_runs_max_steps_witness :
  Np.wf X_ones /\ (0 < Np.nrows X_ones)%nat /\
  length y_001 = Np.nrows X_ones /\ (0 <= 5)%Z /\
  (exists (ws : list Np.vector) (h : list Num.npfloat),
      fit R_half X_ones y_001 5 init
      = (Ok tt, {| w := Some (last ws (rand R_half (S (Np.ncols X_ones))));
                   history := Some h |})
      /\ Z.of_nat (length ws) = 5%Z
      /\ Z.of_nat (length h) = 5%Z
      /\ (forall k : nat,
            (k < length ws)%nat ->
            update_w (Np.append_ones X_ones) y_001 (drawn R_half k X_ones)
                     {| w := Some (nth k (rand R_half (S (Np.ncols X_ones)) :: ws) []);
                        history := Some (firstn k h) |}
            = (Ok tt, {| w := Some (nth k ws []);
                         history := Some (firstn k h) |})
            /\ score X_ones y_001 {| w := Some (nth k ws []);
                                     history := Some (firstn k h) |}
               = (Ok (nth k h Num.NaN),
                  {| w := Some (nth k ws []); history := Some (firstn k h) |}))
      /\ (5%Z = 0%Z ->
          h = [] /\ last ws (rand R_half (S (Np.ncols X_ones)))
                    = rand R_half (S (Np.ncols X_ones))))
  /\ fit R_half X_ones y_001 (5 + 1) init
     = bind (fit R_half X_ones y_001 5)
            (fun _ => fit_body R_half (Np.append_ones X_ones) X_ones y_001
                               (Z.to_nat 5))
            init.
Proof.
  assert (Hwf : Np.wf X_ones) by (repeat constructor).
  assert (Hn : (0 < Np.nrows X_ones)%nat) by (vm_compute; lia).
  split; [exact Hwf |]. split; [exact Hn |]. split; [reflexivity |].
  split; [lia |].
  apply (fit_runs_max_steps R_half X_ones y_001 5%Z init);
    [exact Hwf | exact Hn | reflexivity | lia].
Defined.
